(** * resumelens: the analysis route [src/app/api/analyze/route.js]

    A shallow embedding of the request handlers [POST], [handleTextRequest],
    [handleFileUpload] and [GET], and the properties of their validation,
    dispatch, provider request and error mapping.

    JavaScript strings are sequences of UTF-16 code units, uploaded files
    are byte sequences.  The generative-AI provider, the clock and the
    process environment are parameters of the handlers.  A handler is a
    computation that records the provider calls it makes and either returns
    or throws. *)

From Stdlib Require Import List String Ascii ZArith NArith QArith Bool Lia.
From Stdlib Require Import Strings.Byte DecimalString.
Import ListNotations.

Set Warnings "-register-all".

Local Open Scope bool_scope.
Local Open Scope N_scope.

(** ** JavaScript strings *)

Module JsString.

(** A string is its sequence of UTF-16 code units. *)
Definition t := list N.

(** A literal of the source (all of them are ASCII). *)
Definition lit (s : string) : t := map N_of_ascii (list_ascii_of_string s).

Definition length (s : t) : N := N.of_nat (List.length s).

Fixpoint eqb (a b : t) : bool :=
  match a, b with
  | [], [] => true
  | x :: a', y :: b' => (x =? y) && eqb a' b'
  | _, _ => false
  end.

(** [s.startsWith(p)] *)
Fixpoint startsWith (p s : t) : bool :=
  match p, s with
  | [], _ => true
  | _ :: _, [] => false
  | x :: p', y :: s' => (x =? y) && startsWith p' s'
  end.

(** [s.includes(p)] *)
Fixpoint includes (p s : t) : bool :=
  startsWith p s ||
  match s with
  | [] => false
  | _ :: s' => includes p s'
  end.

(** [s.substring(0, n)] *)
Definition substring0 (n : N) (s : t) : t := firstn (N.to_nat n) s.

(** WhiteSpace and LineTerminator code points of ECMAScript, the ones
    [String.prototype.trim] strips. *)
Definition is_ws (c : N) : bool :=
  ((9 <=? c) && (c <=? 13)) || (c =? 32) || (c =? 160) || (c =? 5760)
  || ((8192 <=? c) && (c <=? 8202)) || (c =? 8232) || (c =? 8233)
  || (c =? 8239) || (c =? 8287) || (c =? 12288) || (c =? 65279).

Fixpoint trimStart (s : t) : t :=
  match s with
  | [] => []
  | c :: s' => if is_ws c then trimStart s' else s
  end.

Definition trimEnd (s : t) : t := rev (trimStart (rev s)).

(** [s.trim()] *)
Definition trim (s : t) : t := trimEnd (trimStart s).

(** Decimal rendering of a non-negative integer, as [String(n)] gives. *)
Definition of_N (n : N) : t :=
  match n with
  | 0 => lit "0"
  | _ => lit (NilEmpty.string_of_uint (N.to_uint n))
  end.

(** [arr.join(sep)] on an array of strings *)
Fixpoint join (sep : t) (l : list t) : t :=
  match l with
  | [] => []
  | [x] => x
  | x :: l' => x ++ sep ++ join sep l'
  end.

End JsString.

Abbreviation jsstring := JsString.t.
Notation "'js' s" := (JsString.lit s%string) (at level 9, s at level 9, only parsing).

(** ** Platform functions the route calls *)

Module Platform.

(** [Buffer.prototype.toString('base64')]: RFC 4648 alphabet with padding. *)
Definition b64_alphabet : jsstring :=
  js "ABCDEFGHIJKLMNOPQRSTUVWXYZabcdefghijklmnopqrstuvwxyz0123456789+/".

Definition b64_char (i : N) : N := nth (N.to_nat i) b64_alphabet 0.

Definition b64_pad : N := 61.

Fixpoint base64_N (bs : list N) : jsstring :=
  match bs with
  | [] => []
  | [a] =>
      [b64_char (N.shiftr a 2); b64_char (N.shiftl (N.land a 3) 4);
       b64_pad; b64_pad]
  | [a; b] =>
      [b64_char (N.shiftr a 2);
       b64_char (N.lor (N.shiftl (N.land a 3) 4) (N.shiftr b 4));
       b64_char (N.shiftl (N.land b 15) 2); b64_pad]
  | a :: b :: c :: rest =>
      b64_char (N.shiftr a 2)
      :: b64_char (N.lor (N.shiftl (N.land a 3) 4) (N.shiftr b 4))
      :: b64_char (N.lor (N.shiftl (N.land b 15) 2) (N.shiftr c 6))
      :: b64_char (N.land c 63)
      :: base64_N rest
  end.

Definition base64 (bs : list byte) : jsstring := base64_N (map Byte.to_N bs).

(** [new TextDecoder('utf-8').decode(buf)]: the WHATWG UTF-8 decoder in its
    default replacement mode (it never throws), followed by the removal of
    a leading byte order mark and the conversion of scalar values to UTF-16
    code units. *)
Record utf8_state := {
  code_point : N;
  bytes_seen : N;
  bytes_needed : N;
  lower : N;
  upper : N
}.

Definition utf8_init : utf8_state :=
  {| code_point := 0; bytes_seen := 0; bytes_needed := 0;
     lower := 128; upper := 191 |}.

Definition replacement : N := 65533.

(** A byte read while no sequence is open. *)
Definition utf8_lead (b : N) : list N * utf8_state :=
  if b <=? 127 then ([b], utf8_init)
  else if (194 <=? b) && (b <=? 223) then
    ([], {| code_point := N.land b 31; bytes_seen := 0; bytes_needed := 1;
            lower := 128; upper := 191 |})
  else if (224 <=? b) && (b <=? 239) then
    ([], {| code_point := N.land b 15; bytes_seen := 0; bytes_needed := 2;
            lower := if b =? 224 then 160 else 128;
            upper := if b =? 237 then 159 else 191 |})
  else if (240 <=? b) && (b <=? 244) then
    ([], {| code_point := N.land b 7; bytes_seen := 0; bytes_needed := 3;
            lower := if b =? 240 then 144 else 128;
            upper := if b =? 244 then 143 else 191 |})
  else ([replacement], utf8_init).

Definition utf8_step (st : utf8_state) (b : N) : list N * utf8_state :=
  if bytes_needed st =? 0 then utf8_lead b
  else if (lower st <=? b) && (b <=? upper st) then
    let cp := N.lor (N.shiftl (code_point st) 6) (N.land b 63) in
    let seen := bytes_seen st + 1 in
    if seen =? bytes_needed st then ([cp], utf8_init)
    else ([], {| code_point := cp; bytes_seen := seen;
                 bytes_needed := bytes_needed st;
                 lower := 128; upper := 191 |})
  else
    (* the offending byte is put back and read again from the initial state *)
    let '(out, st') := utf8_lead b in (replacement :: out, st').

Fixpoint utf8_run (st : utf8_state) (bs : list N) : list N :=
  match bs with
  | [] => if bytes_needed st =? 0 then [] else [replacement]
  | b :: rest => let '(out, st') := utf8_step st b in out ++ utf8_run st' rest
  end.

Definition strip_bom (cps : list N) : list N :=
  match cps with
  | 65279 :: rest => rest
  | _ => cps
  end.

Definition utf16_units (cp : N) : list N :=
  if cp <? 65536 then [cp]
  else let v := cp - 65536 in [55296 + N.shiftr v 10; 56320 + N.land v 1023].

Definition utf8_decode (bs : list byte) : jsstring :=
  flat_map utf16_units (strip_bom (utf8_run utf8_init (map Byte.to_N bs))).

(** [(n / 1024).toFixed(1)] for an integer [n] below 2^53: the quotient is
    exact in a double, and toFixed picks the nearest tenth, the larger one
    on a tie. *)
Definition toFixed1_div1024 (n : N) : jsstring :=
  let tenths := (10 * n + 512) / 1024 in
  JsString.of_N (tenths / 10) ++ js "." ++ JsString.of_N (tenths mod 10).

End Platform.

(** ** Values, files and errors *)

(** An uploaded [File]: [size] and [type] are the properties the route
    reads, [content] is what [arrayBuffer()] yields. *)
Record File := {
  name : jsstring;
  size : N;
  type : jsstring;
  content : list byte
}.

(** The JavaScript values the route handles: parsed JSON, form-data
    entries, the entries of [SUPPORTED_TYPES] and what its prototype chain
    holds, and the object literals given to [NextResponse.json]. *)
Inductive value :=
| VUndefined
| VNull
| VBool (b : bool)
| VNum (z : Z)
| VStr (s : jsstring)
| VArr (items : list value)
| VObj (props : list (jsstring * value))
| VFun (fname : string)
| VFile (f : File).

(** What is thrown: an object whose [message] and [stack] are strings or
    undefined, as the errors of the provider's SDK and of the engine are.
    A rejection with null or undefined, on which [error.message] throws
    inside the catch clause of a handler so that the catch clause of
    [POST] answers, is not represented. *)
Record JsError := {
  message : option jsstring;
  stack : option jsstring
}.

Inductive outcome (A : Type) :=
| Returns (a : A)
| Throws (e : JsError).
Arguments Returns {A} a.
Arguments Throws {A} e.

(** ToBoolean *)
Definition truthy (v : value) : bool :=
  match v with
  | VUndefined | VNull => false
  | VBool b => b
  | VNum z => negb (z =? 0)%Z
  | VStr s => match s with [] => false | _ => true end
  | VArr _ | VObj _ | VFun _ | VFile _ => true
  end.

Definition of_Z (z : Z) : jsstring :=
  match z with
  | Zneg p => js "-" ++ JsString.of_N (Npos p)
  | _ => JsString.of_N (Z.to_N z)
  end.

(** ToString, as a template literal or a property key applies it. *)
Fixpoint to_string (v : value) : jsstring :=
  match v with
  | VUndefined => js "undefined"
  | VNull => js "null"
  | VBool true => js "true"
  | VBool false => js "false"
  | VNum z => of_Z z
  | VStr s => s
  | VArr items =>
      JsString.join (js ",")
        ((fix each (l : list value) : list jsstring :=
            match l with
            | [] => []
            | (VUndefined | VNull) :: l' => [] :: each l'
            | x :: l' => to_string x :: each l'
            end) items)
  | VObj _ => js "[object Object]"
  | VFun f => js "function " ++ js f ++ js "() { [native code] }"
  | VFile _ => js "[object File]"
  end.

Definition opt_value (o : option jsstring) : value :=
  match o with
  | Some s => VStr s
  | None => VUndefined
  end.

(** ** Objects *)

Fixpoint own_property {A : Type} (props : list (jsstring * A)) (key : jsstring)
  : option A :=
  match props with
  | [] => None
  | (k, v) :: rest => if JsString.eqb k key then Some v else own_property rest key
  end.

(** What an object literal inherits: the properties of [Object.prototype]. *)
Definition Object_prototype : list (jsstring * value) :=
  [ (js "constructor", VFun "Object");
    (js "__defineGetter__", VFun "__defineGetter__");
    (js "__defineSetter__", VFun "__defineSetter__");
    (js "hasOwnProperty", VFun "hasOwnProperty");
    (js "__lookupGetter__", VFun "__lookupGetter__");
    (js "__lookupSetter__", VFun "__lookupSetter__");
    (js "isPrototypeOf", VFun "isPrototypeOf");
    (js "propertyIsEnumerable", VFun "propertyIsEnumerable");
    (js "toString", VFun "toString");
    (js "valueOf", VFun "valueOf");
    (js "__proto__", VObj []);
    (js "toLocaleString", VFun "toLocaleString") ].

(** [obj[key]] on an object literal: an own property, else an inherited
    one, else undefined. *)
Definition get_property (props : list (jsstring * value)) (key : value) : value :=
  let k := to_string key in
  match own_property props k with
  | Some v => v
  | None =>
      match own_property Object_prototype k with
      | Some v => v
      | None => VUndefined
      end
  end.

(** [Object.values(obj)]: the own properties in insertion order. *)
Definition Object_values (props : list (jsstring * value)) : list value :=
  map snd props.

(** What [JSON.stringify] keeps of a property: undefined and functions are
    left out. *)
Definition json_property (body : value) (key : jsstring) : option value :=
  match body with
  | VObj props =>
      match own_property props key with
      | Some VUndefined | Some (VFun _) | None => None
      | Some v => Some v
      end
  | _ => None
  end.

(** ** Requests, responses and the provider *)

(** [formData.get(name)] gives the first entry of that name, a string or a
    [File], or null. *)
Inductive FormDataEntryValue :=
| StringEntry (s : jsstring)
| FileEntry (f : File).

Definition entry_value (e : FormDataEntryValue) : value :=
  match e with
  | StringEntry s => VStr s
  | FileEntry f => VFile f
  end.

Definition FormData := list (jsstring * FormDataEntryValue).

Definition FormData_get (fd : FormData) (field : jsstring) : value :=
  match own_property fd field with
  | Some e => entry_value e
  | None => VNull
  end.

(** A request: the content-type header and what [request.json()] and
    [request.formData()] resolve to. *)
Record Request := {
  content_type : option jsstring;
  json : outcome value;
  formData : outcome FormData
}.

Record HttpResponse := {
  status : Z;
  body : value
}.

(** [NextResponse.json(body, { status })] *)
Definition NextResponse_json (b : value) (st : Z) : HttpResponse :=
  {| status := st; body := b |}.

Record GenerationConfig := {
  temperature : Q;
  topP : Q;
  topK : Z;
  maxOutputTokens : Z
}.

Inductive Part :=
| TextPart (text : jsstring)
| InlineData (mimeType : jsstring) (data : jsstring).

Inductive Content :=
| TextPrompt (prompt : jsstring)
| Parts (parts : list Part).

(** One round trip to the provider: [getGenerativeModel(...)], then
    [generateContent(content)], [result.response] and [response.text()]. *)
Record ProviderCall := {
  model : jsstring;
  generationConfig : GenerationConfig;
  contents : Content
}.

(** What the handlers depend on besides the request. *)
Record Env := {
  provider : ProviderCall -> outcome jsstring;
  NEXT_PUBLIC_MODEL_NAME : option jsstring;
  now_ISOString : jsstring;
  engine_stack : jsstring -> option jsstring
}.

(** ** Computations: the provider calls made, then a result or a throw *)

Definition M (A : Type) : Type := list ProviderCall * outcome A.

Definition ret {A} (a : A) : M A := ([], Returns a).

Definition throw {A} (e : JsError) : M A := ([], Throws e).

Definition bind {A B} (m : M A) (k : A -> M B) : M B :=
  match m with
  | (calls, Returns a) => let '(calls', r) := k a in (calls ++ calls', r)
  | (calls, Throws e) => (calls, Throws e)
  end.

Definition try_catch {A} (m : M A) (handler : JsError -> M A) : M A :=
  match m with
  | (calls, Returns a) => (calls, Returns a)
  | (calls, Throws e) => let '(calls', r) := handler e in (calls ++ calls', r)
  end.

Definition await {A} (o : outcome A) : M A := ([], o).

Notation "x <- m ;; k" := (bind m (fun x => k))
  (at level 61, m at next level, right associativity).

(** ** The route *)

Definition DEFAULT_MODEL_NAME : jsstring := js "gemini-1.5-flash".

(** Supported file types *)
Definition SUPPORTED_TYPES : list (jsstring * value) :=
  [ (js "application/pdf", VStr (js "PDF"));
    (js "text/plain", VStr (js "TXT"));
    (js "text/markdown", VStr (js "Markdown"));
    (js "application/msword", VStr (js "DOC"));
    (js "application/vnd.openxmlformats-officedocument.wordprocessingml.document",
      VStr (js "DOCX"));
    (js "text/csv", VStr (js "CSV"));
    (js "image/jpeg", VStr (js "JPEG"));
    (js "image/png", VStr (js "PNG"));
    (js "image/webp", VStr (js "WebP"));
    (js "application/json", VStr (js "JSON")) ].

(** Max file size: 10MB *)
Definition MAX_FILE_SIZE : N := 10 * 1024 * 1024.

(** [`${MAX_FILE_SIZE / 1024 / 1024}MB`] *)
Definition MAX_FILE_SIZE_MB : jsstring :=
  JsString.of_N (MAX_FILE_SIZE / 1024 / 1024) ++ js "MB".

Definition text_generationConfig : GenerationConfig :=
  {| temperature := 7 # 10; topP := 8 # 10; topK := 40; maxOutputTokens := 2048 |}.

Definition file_generationConfig : GenerationConfig :=
  {| temperature := 7 # 10; topP := 8 # 10; topK := 40; maxOutputTokens := 4096 |}.

Definition DEFAULT_PROMPT : jsstring :=
  js "Please analyze this file content and provide key insights".

Definition DEFAULT_INSTRUCTION : jsstring :=
  js "Extract key information, summarize content, and provide analysis".

(** [a || b] *)
Definition or_else (a b : value) : value := if truthy a then a else b.

(** [error.message?.includes(s)], undefined (falsy) without a message. *)
Definition message_includes (error : JsError) (s : jsstring) : bool :=
  match message error with
  | Some m => JsString.includes s m
  | None => false
  end.

(** The properties of a form-data entry the route reads; a string entry
    has none of them. *)
Definition entry_size (file : value) : value :=
  match file with
  | VFile f => VNum (Z.of_N (size f))
  | _ => VUndefined
  end.

Definition entry_type (file : value) : value :=
  match file with
  | VFile f => VStr (type f)
  | _ => VUndefined
  end.

Definition entry_name (file : value) : value :=
  match file with
  | VFile f => VStr (name f)
  | _ => VUndefined
  end.

(** [v > n] for a number [n]: false when [v] is undefined. *)
Definition greater_than (v : value) (n : N) : bool :=
  match v with
  | VNum z => (Z.of_N n <? z)%Z
  | _ => false
  end.

(** The test [POST] dispatches on: the content-type header, or the empty
    string without one, includes 'multipart/form-data'. *)
Definition is_form_data (request : Request) : bool :=
  let contentType := or_else (opt_value (content_type request)) (VStr []) in
  JsString.includes (js "multipart/form-data") (to_string contentType).

Section Route.

Variable env : Env.

Definition MODEL_NAME : jsstring :=
  match or_else (opt_value (NEXT_PUBLIC_MODEL_NAME env)) (VStr DEFAULT_MODEL_NAME) with
  | VStr s => s
  | _ => DEFAULT_MODEL_NAME
  end.

(** A TypeError the engine raises. *)
Definition TypeError (msg : jsstring) : JsError :=
  {| message := Some msg; stack := engine_stack env msg |}.

Definition generateContent (cfg : GenerationConfig) (c : Content) : M jsstring :=
  let call := {| model := MODEL_NAME; generationConfig := cfg; contents := c |} in
  ([call], provider env call).

(** The catch clause of [handleTextRequest]. *)
Definition text_error_response (error : JsError) : HttpResponse :=
  if message_includes error (js "API key") || message_includes error (js "API_KEY_INVALID")
  then
    NextResponse_json (VObj
      [ (js "success", VBool false);
        (js "error", VStr (js "Gemini API key is invalid or missing. Please check your GOOGLE_API_KEY in .env.local file."));
        (js "details", opt_value (message error)) ]) 401
  else if message_includes error (js "quota") || message_includes error (js "QUOTA")
  then
    NextResponse_json (VObj
      [ (js "success", VBool false);
        (js "error", VStr (js "API quota exceeded. Please check your Google Cloud billing or wait until quota resets."));
        (js "details", opt_value (message error)) ]) 429
  else
    NextResponse_json (VObj
      [ (js "success", VBool false);
        (js "error", VStr (js "Text analysis failed: " ++ to_string (opt_value (message error))));
        (js "details", opt_value (stack error)) ]) 500.

Definition prompt_required : HttpResponse :=
  NextResponse_json (VObj
    [ (js "success", VBool false);
      (js "error", VStr (js "Prompt is required")) ]) 400.

(** [const { prompt, timestamp } = body]: null cannot be destructured; a
    parsed JSON value that is not an object has no such property. *)
Definition destructure_prompt (b : value) : M value :=
  match b with
  | VNull | VUndefined =>
      throw (TypeError (js "Cannot destructure property 'prompt' of 'body' as it is null."))
  | VObj props => ret (get_property props (VStr (js "prompt")))
  | _ => ret VUndefined
  end.

(** Handle text-only requests *)
Definition handleTextRequest (request : Request) : M HttpResponse :=
  try_catch
    (b <- await (json request) ;;
     prompt <- destructure_prompt b ;;
     match prompt with
     | VUndefined | VNull => ret prompt_required
     | VStr p =>
         if negb (truthy (VStr (JsString.trim p))) then ret prompt_required
         else
           text <- generateContent text_generationConfig (TextPrompt p) ;;
           ret (NextResponse_json (VObj
             [ (js "success", VBool true);
               (js "response", VStr text);
               (js "metadata", VObj
                 [ (js "model", VStr MODEL_NAME);
                   (js "promptLength", VNum (Z.of_N (JsString.length p)));
                   (js "responseLength", VNum (Z.of_N (JsString.length text)));
                   (js "timestamp", VStr (now_ISOString env)) ]) ]) 200)
     | _ => throw (TypeError (js "prompt?.trim is not a function"))
     end)
    (fun error => ret (text_error_response error)).

(** The catch clause of [handleFileUpload]. *)
Definition file_error_response (error : JsError) : HttpResponse :=
  if message_includes error (js "API key") || message_includes error (js "API_KEY_INVALID")
  then
    NextResponse_json (VObj
      [ (js "success", VBool false);
        (js "error", VStr (js "Gemini API key is invalid or missing. Please check your GOOGLE_API_KEY in .env.local file."));
        (js "details", opt_value (message error)) ]) 401
  else if message_includes error (js "quota") || message_includes error (js "QUOTA")
  then
    NextResponse_json (VObj
      [ (js "success", VBool false);
        (js "error", VStr (js "API quota exceeded. Please check your Google Cloud billing or wait until quota resets."));
        (js "details", opt_value (message error)) ]) 429
  else if message_includes error (js "invalid") && message_includes error (js "file")
  then
    NextResponse_json (VObj
      [ (js "success", VBool false);
        (js "error", VStr (js "File format may not be supported by Gemini. Try converting to a different format."));
        (js "details", opt_value (message error)) ]) 400
  else
    NextResponse_json (VObj
      [ (js "success", VBool false);
        (js "error", VStr (js "File analysis failed: " ++ to_string (opt_value (message error))));
        (js "details", opt_value (stack error)) ]) 500.

Definition no_file_provided : HttpResponse :=
  NextResponse_json (VObj
    [ (js "success", VBool false);
      (js "error", VStr (js "No file provided")) ]) 400.

Definition file_too_large : HttpResponse :=
  NextResponse_json (VObj
    [ (js "success", VBool false);
      (js "error", VStr (js "File too large. Maximum size is " ++ MAX_FILE_SIZE_MB)) ]) 413.

Definition unsupported_type (fileType : value) : HttpResponse :=
  NextResponse_json (VObj
    [ (js "success", VBool false);
      (js "error", VStr (js "Unsupported file type: " ++ to_string fileType
                         ++ js ". Supported types: "
                         ++ JsString.join (js ", ")
                              (map to_string (Object_values SUPPORTED_TYPES)))) ]) 400.

(** The lines every composed prompt starts with. *)
Definition prompt_header (instruction : value) (f : File) (supportedType : value)
    (prompt : jsstring) : jsstring :=
  to_string instruction ++ [10; 10] ++ js "File: " ++ name f ++ [10]
  ++ js "Type: " ++ to_string supportedType ++ [10]
  ++ js "Size: " ++ Platform.toFixed1_div1024 (size f) ++ js " KB" ++ [10; 10]
  ++ js "Prompt: " ++ prompt ++ [10; 10].

(** The branch on the kind of file: inline binary data for images and
    PDFs, decoded text for the rest. *)
Definition file_contents (instruction : value) (f : File) (supportedType : value)
    (prompt : jsstring) : Content :=
  if JsString.startsWith (js "image/") (type f) || JsString.eqb (type f) (js "application/pdf")
  then
    let base64Data := Platform.base64 (content f) in
    Parts
      [ TextPart (prompt_header instruction f supportedType prompt
                  ++ js "Please analyze this document:");
        InlineData (type f) base64Data ]
  else
    let extractedText := JsString.substring0 15000 (Platform.utf8_decode (content f)) in
    TextPrompt (prompt_header instruction f supportedType prompt
                ++ js "File Content:" ++ [10] ++ extractedText).

(** Handle file uploads *)
Definition handleFileUpload (request : Request) : M HttpResponse :=
  try_catch
    (fd <- await (formData request) ;;
     let file := FormData_get fd (js "file") in
     let prompt := or_else (FormData_get fd (js "prompt")) (VStr DEFAULT_PROMPT) in
     let instruction :=
       or_else (FormData_get fd (js "instruction")) (VStr DEFAULT_INSTRUCTION) in
     if negb (truthy file) then ret no_file_provided
     else if greater_than (entry_size file) MAX_FILE_SIZE then ret file_too_large
     else
       let fileType := entry_type file in
       let supportedType := get_property SUPPORTED_TYPES fileType in
       if negb (truthy supportedType) then ret (unsupported_type fileType)
       else
         (* the log line takes [prompt.substring(0, 100)] *)
         match prompt with
         | VStr p =>
             match file with
             | VFile f =>
                 analysis <- generateContent file_generationConfig
                               (file_contents instruction f supportedType p) ;;
                 ret (NextResponse_json (VObj
                   [ (js "success", VBool true);
                     (js "response", VStr analysis);
                     (js "metadata", VObj
                       [ (js "model", VStr MODEL_NAME);
                         (js "fileName", VStr (name f));
                         (js "fileType", supportedType);
                         (js "fileSize", VNum (Z.of_N (size f)));
                         (js "analysisLength", VNum (Z.of_N (JsString.length analysis)));
                         (js "timestamp", VStr (now_ISOString env)) ]) ]) 200)
             | _ => throw (TypeError (js "file.arrayBuffer is not a function"))
             end
         | _ => throw (TypeError (js "prompt.substring is not a function"))
         end)
    (fun error => ret (file_error_response error)).

Definition POST (request : Request) : M HttpResponse :=
  try_catch
    (if is_form_data request
     then handleFileUpload request
     else handleTextRequest request)
    (fun error =>
       ret (NextResponse_json (VObj
         [ (js "success", VBool false);
           (js "error", VStr (js "Server error: " ++ to_string (opt_value (message error))));
           (js "details", opt_value (stack error)) ]) 500)).

(** Handle GET requests *)
Definition GET (request : Request) : HttpResponse :=
  NextResponse_json (VObj
    [ (js "message", VStr (js "Gemini AI Analysis API"));
      (js "status", VStr (js "active"));
      (js "model", VStr MODEL_NAME);
      (js "supportedFileTypes", VArr (Object_values SUPPORTED_TYPES));
      (js "maxFileSize", VStr MAX_FILE_SIZE_MB);
      (js "endpoints", VObj
        [ (js "textAnalysis",
            VStr (js "POST /api/analyze with JSON body {prompt: " ++ [34] ++ js "your text" ++ [34] ++ js "}"));
          (js "fileAnalysis",
            VStr (js "POST /api/analyze with multipart/form-data (file and optional prompt)")) ]);
      (js "exampleUsage", VObj
        [ (js "curlText",
            VStr (js "curl -X POST http://localhost:3000/api/analyze -H " ++ [34]
                  ++ js "Content-Type: application/json" ++ [34] ++ js " -d '{" ++ [34]
                  ++ js "prompt" ++ [34] ++ js ":" ++ [34] ++ js "Hello Gemini" ++ [34] ++ js "}'"));
          (js "curlFile",
            VStr (js "curl -X POST http://localhost:3000/api/analyze -F " ++ [34]
                  ++ js "file=@document.pdf" ++ [34] ++ js " -F " ++ [34]
                  ++ js "prompt=Analyze this" ++ [34])) ]) ]) 200.

End Route.

(** ** The calls the handlers make *)

(** The request [handleTextRequest] sends for a prompt. *)
Definition text_call (env : Env) (p : jsstring) : ProviderCall :=
  {| model := MODEL_NAME env;
     generationConfig := text_generationConfig;
     contents := TextPrompt p |}.

(** The request [handleFileUpload] sends for a file that passed validation. *)
Definition file_call (env : Env) (instruction : value) (f : File)
    (supportedType : value) (p : jsstring) : ProviderCall :=
  {| model := MODEL_NAME env;
     generationConfig := file_generationConfig;
     contents := file_contents instruction f supportedType p |}.

(** The body of a successful upload. *)
Definition file_success (env : Env) (f : File) (supportedType : value)
    (analysis : jsstring) : HttpResponse :=
  NextResponse_json (VObj
    [ (js "success", VBool true);
      (js "response", VStr analysis);
      (js "metadata", VObj
        [ (js "model", VStr (MODEL_NAME env));
          (js "fileName", VStr (name f));
          (js "fileType", supportedType);
          (js "fileSize", VNum (Z.of_N (size f)));
          (js "analysisLength", VNum (Z.of_N (JsString.length analysis)));
          (js "timestamp", VStr (now_ISOString env)) ]) ]) 200.

(** The body of a successful text analysis. *)
Definition text_success (env : Env) (p text : jsstring) : HttpResponse :=
  NextResponse_json (VObj
    [ (js "success", VBool true);
      (js "response", VStr text);
      (js "metadata", VObj
        [ (js "model", VStr (MODEL_NAME env));
          (js "promptLength", VNum (Z.of_N (JsString.length p)));
          (js "responseLength", VNum (Z.of_N (JsString.length text)));
          (js "timestamp", VStr (now_ISOString env)) ]) ]) 200.

(** The envelope the responses of [POST] share: success tells whether the
    status is 200; a success carries response and metadata and no error,
    a failure carries error and neither response nor metadata. *)
Definition envelope (resp : HttpResponse) : Prop :=
  let present k := json_property (body resp) k in
  (exists props, body resp = VObj props)
  /\ present (js "success") = Some (VBool (status resp =? 200)%Z)
  /\ if (status resp =? 200)%Z
     then (exists text, present (js "response") = Some (VStr text))
          /\ present (js "error") = None
          /\ (exists metadata, present (js "metadata") = Some (VObj metadata))
     else (exists msg, present (js "error") = Some (VStr msg))
          /\ present (js "response") = None
          /\ present (js "metadata") = None.

(** The request with its form fields replaced. *)
Definition with_formData (request : Request) (fd : FormData) : Request :=
  {| content_type := content_type request;
     json := json request;
     formData := Returns fd |}.

(** The two optional form fields, holding their defaults. *)
Definition default_fields : FormData :=
  [ (js "prompt", StringEntry DEFAULT_PROMPT);
    (js "instruction", StringEntry DEFAULT_INSTRUCTION) ].

(** The MIME types of the allow-list. *)
Definition supported_mime_types : list jsstring := map fst SUPPORTED_TYPES.

(** ** Sample environments and requests *)

Definition sample_stack (msg : jsstring) : option jsstring :=
  Some (js "TypeError: " ++ msg ++ [10] ++ js "    at handler (route.js)").

(** A provider that answers every call with the same text. *)
Definition answering_env (text : jsstring) : Env :=
  {| provider := fun _ => Returns text;
     NEXT_PUBLIC_MODEL_NAME := None;
     now_ISOString := js "2025-01-01T00:00:00.000Z";
     engine_stack := sample_stack |}.

(** A provider that fails every call with the same error. *)
Definition failing_env (error : JsError) : Env :=
  {| provider := fun _ => Throws error;
     NEXT_PUBLIC_MODEL_NAME := None;
     now_ISOString := js "2025-01-01T00:00:00.000Z";
     engine_stack := sample_stack |}.

Definition error_of (msg : string) : JsError :=
  {| message := Some (js msg);
     stack := Some (js "Error: " ++ js msg ++ [10] ++ js "    at generateContent") |}.

Definition json_request (b : value) : Request :=
  {| content_type := Some (js "application/json");
     json := Returns b;
     formData := Throws (error_of "Content-Type was not one of multipart/form-data") |}.

Definition multipart_request (fd : FormData) : Request :=
  {| content_type := Some (js "multipart/form-data; boundary=----x");
     json := Throws (error_of "Unexpected token '-'");
     formData := Returns fd |}.

Definition prompt_body (p : string) : value := VObj [(js "prompt", VStr (js p))].

Definition sample_file (type_ : string) (size_ : N) (bytes : list byte) : File :=
  {| name := js "resume"; size := size_; type := js type_; content := bytes |}.

Definition hello_bytes : list byte := [x48; x65; x6c; x6c; x6f]%byte.

(** ** The rest of the route *)

(** A JSON value that is a boolean, a number, an array or an object. *)
Definition not_a_string (v : value) : Prop :=
  match v with
  | VBool _ | VNum _ | VArr _ | VObj _ => True
  | _ => False
  end.

(** Handle OPTIONS for CORS: [new NextResponse(null, { status, headers })]. *)
Record PlainResponse := {
  plain_status : Z;
  plain_body : value;
  plain_headers : list (jsstring * jsstring)
}.

Definition OPTIONS (request : Request) : PlainResponse :=
  {| plain_status := 200;
     plain_body := VNull;
     plain_headers :=
       [ (js "Access-Control-Allow-Methods", js "GET, POST, PUT, DELETE, OPTIONS");
         (js "Access-Control-Allow-Headers", js "Content-Type, Authorization, Accept");
         (js "Access-Control-Allow-Origin", js "*");
         (js "Access-Control-Max-Age", js "86400") ] |}.

(** ** The pages [src/app/page.js] and [src/app/login/page.js] *)

(** What a page hands to [fetch] as the body: the JSON text of a value
    ([JSON.stringify(v)], kept as the value it denotes) or a [FormData]. *)
Inductive RequestBody :=
| JsonText (v : value)
| FormBody (fd : FormData).

(** The second argument of [fetch]. *)
Record FetchInit := {
  method : jsstring;
  headers : list (jsstring * jsstring);
  fetch_body : RequestBody
}.

(** What a handler of a page does besides setting state. *)
Inductive Effect :=
| PreventDefault
| Push (path : jsstring)
| Fetch (url : jsstring) (init : FetchInit)
| SignOut
| SignInWithEmailAndPassword (email password : jsstring)
| CreateUserWithEmailAndPassword (email password : jsstring)
| SignInWithPopup.

(** [data.key] on what [res.json()] gave: null has no properties, an
    object answers with its own or inherited property, any other parsed
    JSON value has none of the keys the page reads. *)
Definition member (data : value) (key : jsstring) : outcome value :=
  match data with
  | VNull | VUndefined =>
      Throws {| message := Some (js "Cannot read properties of null"); stack := None |}
  | VObj props => Returns (get_property props (VStr key))
  | _ => Returns VUndefined
  end.

Module Home.

(** The signed-in user, of which the page reads the email. *)
Record User := { email : option jsstring }.

(** The state of the component, one field per [useState]. *)
Record State := {
  user : option User;
  loadingAuth : bool;
  input : jsstring;
  file : option File;
  response : value;
  loading : bool;
  error : value;
  activeTab : jsstring
}.

(** The state of the first render. *)
Definition initial : State :=
  {| user := None; loadingAuth := true; input := []; file := None;
     response := VStr []; loading := false; error := VStr [];
     activeTab := js "text" |}.

Definition setUser (u : option User) (st : State) : State :=
  {| user := u; loadingAuth := loadingAuth st; input := input st; file := file st;
     response := response st; loading := loading st; error := error st;
     activeTab := activeTab st |}.

Definition setLoadingAuth (b : bool) (st : State) : State :=
  {| user := user st; loadingAuth := b; input := input st; file := file st;
     response := response st; loading := loading st; error := error st;
     activeTab := activeTab st |}.

Definition setResponse (v : value) (st : State) : State :=
  {| user := user st; loadingAuth := loadingAuth st; input := input st; file := file st;
     response := v; loading := loading st; error := error st;
     activeTab := activeTab st |}.

Definition setLoading (b : bool) (st : State) : State :=
  {| user := user st; loadingAuth := loadingAuth st; input := input st; file := file st;
     response := response st; loading := b; error := error st;
     activeTab := activeTab st |}.

Definition setError (v : value) (st : State) : State :=
  {| user := user st; loadingAuth := loadingAuth st; input := input st; file := file st;
     response := response st; loading := loading st; error := v;
     activeTab := activeTab st |}.

(** One run of a handler: its effects in order, the state rendered while
    the request is awaited (none when no request is made), the state when
    the handler is done, and the error its promise rejects with, if any. *)
Record Run := {
  effects : list Effect;
  in_flight : option State;
  final : State;
  rejected : option JsError
}.

(** The callback given to [onAuthStateChanged]. *)
Definition onAuthStateChanged (currentUser : option User) (st : State) : Run :=
  match currentUser with
  | None =>
      {| effects := [Push (js "/login")]; in_flight := None; final := st;
         rejected := None |}
  | Some u =>
      {| effects := []; in_flight := None;
         final := setLoadingAuth false (setUser (Some u) st); rejected := None |}
  end.

(** What the component returns first: the spinner while [loadingAuth]. *)
Definition shows_spinner (st : State) : bool := loadingAuth st.

Definition handleLogout (signOut : outcome unit) (st : State) : Run :=
  match signOut with
  | Returns _ =>
      {| effects := [SignOut; Push (js "/login")]; in_flight := None; final := st;
         rejected := None |}
  | Throws e =>
      {| effects := [SignOut]; in_flight := None; final := st; rejected := Some e |}
  end.

(** What the try block of both submit handlers does with the outcome of
    [fetch] and [res.json()], with its catch and finally clauses. *)
Definition settle (failure : jsstring) (data : outcome value) (st : State) : State :=
  let attempt : outcome State :=
    match data with
    | Throws e => Throws e
    | Returns d =>
        match member d (js "success") with
        | Throws e => Throws e
        | Returns success =>
            if truthy success then
              match member d (js "response") with
              | Returns r => Returns (setResponse r st)
              | Throws e => Throws e
              end
            else
              match member d (js "error") with
              | Returns r => Returns (setError r st)
              | Throws e => Throws e
              end
        end
    end in
  setLoading false
    match attempt with
    | Returns st' => st'
    | Throws _ => setError (VStr failure) st
    end.

Section Handlers.

(** [fetch(url, init)] followed by [res.json()]. *)
Variable fetch_json : jsstring -> FetchInit -> outcome value.

Definition text_init (st : State) : FetchInit :=
  {| method := js "POST";
     headers := [(js "Content-Type", js "application/json")];
     fetch_body := JsonText (VObj [(js "prompt", VStr (input st))]) |}.

Definition handleTextSubmit (st : State) : Run :=
  if negb (truthy (VStr (JsString.trim (input st)))) then
    {| effects := [PreventDefault]; in_flight := None; final := st; rejected := None |}
  else
    let st1 := setResponse (VStr []) (setError (VStr []) (setLoading true st)) in
    let init := text_init st in
    {| effects := [PreventDefault; Fetch (js "/api/analyze") init];
       in_flight := Some st1;
       final := settle (js "Failed to connect to server")
                  (fetch_json (js "/api/analyze") init) st1;
       rejected := None |}.

Definition file_init (st : State) (f : File) : FetchInit :=
  let prompt :=
    match or_else (VStr (input st)) (VStr (js "Analyze this resume")) with
    | VStr p => p
    | _ => []
    end in
  {| method := js "POST";
     headers := [];
     fetch_body := FormBody [ (js "file", FileEntry f);
                              (js "prompt", StringEntry prompt) ] |}.

Definition handleFileSubmit (st : State) : Run :=
  match file st with
  | None =>
      {| effects := [PreventDefault]; in_flight := None; final := st; rejected := None |}
  | Some f =>
      let st1 := setResponse (VStr []) (setError (VStr []) (setLoading true st)) in
      let init := file_init st f in
      {| effects := [PreventDefault; Fetch (js "/api/analyze") init];
         in_flight := Some st1;
         final := settle (js "Failed to upload file")
                    (fetch_json (js "/api/analyze") init) st1;
         rejected := None |}
  end.

End Handlers.

(** The state after a sequence of sign-in and sign-out events. *)
Definition after_auth_events (events : list (option User)) (st : State) : State :=
  fold_left (fun s ev => final (onAuthStateChanged ev s)) events st.

End Home.

(** [s.replace(pat, rep)] for a string pattern and a replacement without
    dollar signs: the first occurrence is replaced. *)
Fixpoint replace_first (pat rep s : jsstring) : jsstring :=
  if JsString.startsWith pat s then rep ++ skipn (List.length pat) s
  else match s with
       | [] => []
       | c :: s' => c :: replace_first pat rep s'
       end.

(** [s.replace(/-/g, ' ')] *)
Definition hyphens_to_spaces (s : jsstring) : jsstring :=
  map (fun c => if c =? 45 then 32 else c) s.

Module Login.

Record State := {
  isLogin : bool;
  email : jsstring;
  password : jsstring;
  confirmPassword : jsstring;
  showPassword : bool;
  showConfirmPassword : bool;
  loading : bool;
  error : jsstring
}.

Definition initial : State :=
  {| isLogin := true; email := []; password := []; confirmPassword := [];
     showPassword := false; showConfirmPassword := false;
     loading := false; error := [] |}.

Definition setIsLogin (b : bool) (st : State) : State :=
  {| isLogin := b; email := email st; password := password st;
     confirmPassword := confirmPassword st; showPassword := showPassword st;
     showConfirmPassword := showConfirmPassword st;
     loading := loading st; error := error st |}.

Definition setLoading (b : bool) (st : State) : State :=
  {| isLogin := isLogin st; email := email st; password := password st;
     confirmPassword := confirmPassword st; showPassword := showPassword st;
     showConfirmPassword := showConfirmPassword st;
     loading := b; error := error st |}.

Definition setError (m : jsstring) (st : State) : State :=
  {| isLogin := isLogin st; email := email st; password := password st;
     confirmPassword := confirmPassword st; showPassword := showPassword st;
     showConfirmPassword := showConfirmPassword st;
     loading := loading st; error := m |}.

Record Run := {
  effects : list Effect;
  in_flight : option State;
  final : State;
  rejected : option JsError
}.

(** [new Error(msg)] *)
Definition Error (msg : jsstring) : JsError := {| message := Some msg; stack := None |}.

(** The checks of the sign-up branch, in their order. *)
Definition signup_check (st : State) : outcome unit :=
  if negb (JsString.eqb (password st) (confirmPassword st))
  then Throws (Error (js "Passwords do not match."))
  else if JsString.length (password st) <? 6
  then Throws (Error (js "Password must be at least 6 characters."))
  else Returns tt.

(** [const msg = err.message.replace(...)...] *)
Definition clean_message (m : jsstring) : jsstring :=
  replace_first (js "operation not allowed")
    (js "Email/Password sign-in is not enabled in Firebase Console.")
    (hyphens_to_spaces
       (replace_first (js "auth/") []
          (replace_first (js "Firebase: ") [] m))).

Section Handlers.

(** The identity provider: the three sign-in calls of its SDK. *)
Variable signInWithEmailAndPassword : jsstring -> jsstring -> outcome unit.
Variable createUserWithEmailAndPassword : jsstring -> jsstring -> outcome unit.
Variable signInWithPopup : outcome unit.

(** [toUpperCase] on a code unit outside ASCII, as the Unicode tables
    have it. *)
Variable unicode_upper : N -> jsstring.

(** [msg.charAt(0).toUpperCase()] *)
Definition charAt0_toUpperCase (msg : jsstring) : jsstring :=
  match msg with
  | [] => []
  | c :: _ =>
      if c <? 128 then [if (97 <=? c) && (c <=? 122) then c - 32 else c]
      else unicode_upper c
  end.

(** [msg.charAt(0).toUpperCase() + msg.slice(1)] *)
Definition capitalized (msg : jsstring) : jsstring :=
  charAt0_toUpperCase msg ++ skipn 1 msg.

(** The catch and finally clauses of [handleAuth], on the state [st] the
    try block started from. *)
Definition auth_failed (effs : list Effect) (inflight : option State)
    (err : JsError) (st : State) : Run :=
  match message err with
  | Some m =>
      {| effects := effs; in_flight := inflight;
         final := setLoading false (setError (capitalized (clean_message m)) st);
         rejected := None |}
  | None =>
      {| effects := effs; in_flight := inflight;
         final := setLoading false st;
         rejected := Some {| message := Some (js "Cannot read properties of undefined (reading 'replace')");
                             stack := None |} |}
  end.

Definition handleAuth (st : State) : Run :=
  let st1 := setError [] (setLoading true st) in
  if isLogin st then
    let call := SignInWithEmailAndPassword (email st) (password st) in
    match signInWithEmailAndPassword (email st) (password st) with
    | Returns _ =>
        {| effects := [PreventDefault; call; Push (js "/")];
           in_flight := Some st1; final := setLoading false st1; rejected := None |}
    | Throws err => auth_failed [PreventDefault; call] (Some st1) err st1
    end
  else
    match signup_check st with
    | Throws err => auth_failed [PreventDefault] None err st1
    | Returns _ =>
        let call := CreateUserWithEmailAndPassword (email st) (password st) in
        match createUserWithEmailAndPassword (email st) (password st) with
        | Returns _ =>
            {| effects := [PreventDefault; call; Push (js "/")];
               in_flight := Some st1; final := setLoading false st1; rejected := None |}
        | Throws err => auth_failed [PreventDefault; call] (Some st1) err st1
        end
    end.

Definition handleGoogleSignIn (st : State) : Run :=
  match signInWithPopup with
  | Returns _ =>
      {| effects := [SignInWithPopup; Push (js "/")]; in_flight := Some st;
         final := st; rejected := None |}
  | Throws _ =>
      {| effects := [SignInWithPopup]; in_flight := Some st;
         final := setError (js "Google Sign-In failed. Please try again.") st;
         rejected := None |}
  end.

End Handlers.

(** The button under the form: [setIsLogin(!isLogin); setError('')]. *)
Definition toggleMode (st : State) : State :=
  setError [] (setIsLogin (negb (isLogin st)) st).

End Login.

(** ** The page and the route together *)

(** The data the page gets agrees with the body the route answered, on
    the three members the page reads; a property the serialisation leaves
    out reads as undefined. *)
Definition received (data : value) (resp : HttpResponse) : Prop :=
  forall key,
    In key [js "success"; js "response"; js "error"] ->
    member data key
    = Returns match json_property (body resp) key with
              | Some v => v
              | None => VUndefined
              end.

(** The headers of a fetch as the route reads them. *)
Definition sent_content_type (init : FetchInit) : option jsstring :=
  own_property (headers init) (js "Content-Type").

(** ** Sample page states *)

Definition typed (text : string) : Home.State :=
  {| Home.user := Some {| Home.email := Some (js "ann@example.com") |};
     Home.loadingAuth := false; Home.input := js text; Home.file := None;
     Home.response := VStr (js "an older answer"); Home.loading := false;
     Home.error := VStr (js "an older error"); Home.activeTab := js "text" |}.

Definition picked (text : string) (f : File) : Home.State :=
  {| Home.user := Some {| Home.email := Some (js "ann@example.com") |};
     Home.loadingAuth := false; Home.input := js text; Home.file := Some f;
     Home.response := VStr []; Home.loading := false;
     Home.error := VStr []; Home.activeTab := js "file" |}.

Definition signup_form (pw confirm : string) : Login.State :=
  {| Login.isLogin := false; Login.email := js "ann@example.com";
     Login.password := js pw; Login.confirmPassword := js confirm;
     Login.showPassword := false; Login.showConfirmPassword := false;
     Login.loading := false; Login.error := js "an older error" |}.

Definition login_form (pw : string) : Login.State :=
  {| Login.isLogin := true; Login.email := js "ann@example.com";
     Login.password := js pw; Login.confirmPassword := [];
     Login.showPassword := false; Login.showConfirmPassword := false;
     Login.loading := false; Login.error := [] |}.

(** An identity provider that accepts everything, and one that refuses
    everything with the same error. *)
Definition accepts (email password : jsstring) : outcome unit := Returns tt.

Definition refuses (err : JsError) (email password : jsstring) : outcome unit :=
  Throws err.

(** Upper-casing outside ASCII, left as it is in the samples. *)
Definition keep_case (c : N) : jsstring := [c].

(** * Properties *)

(** ** The platform functions on known inputs *)

Example base64_Man : Platform.base64 [x4d; x61; x6e]%byte = js "TWFu".
Proof. reflexivity. Qed.

Example base64_Ma : Platform.base64 [x4d; x61]%byte = js "TWE=".
Proof. reflexivity. Qed.

Example utf8_euro :
  Platform.utf8_decode [xef; xbb; xbf; xe2; x82; xac; x41; xff]%byte
  = [8364; 65; 65533].
Proof. reflexivity. Qed.

Example utf8_astral : Platform.utf8_decode [xf0; x9f; x98; x80]%byte = [55357; 56832].
Proof. reflexivity. Qed.

Example toFixed_2048 : Platform.toFixed1_div1024 2100 = js "2.1".
Proof. reflexivity. Qed.

Example of_N_10 : JsString.of_N 10 = js "10".
Proof. reflexivity. Qed.

Example trim_blank : JsString.trim [32; 9; 160; 10; 8202; 65279] = [].
Proof. reflexivity. Qed.

Example trim_word : JsString.trim (js "  hi there ") = js "hi there".
Proof. reflexivity. Qed.

(** ** Strings *)

Lemma eqb_eq (a b : jsstring) : JsString.eqb a b = true <-> a = b.
Proof.
  revert b; induction a as [|x a IH]; intros [|y b]; simpl; split;
    try congruence; try reflexivity.
  - intros H. apply andb_true_iff in H as [Hx Hab].
    apply N.eqb_eq in Hx. apply IH in Hab. congruence.
  - intros H. injection H as -> ->. rewrite N.eqb_refl. simpl. now apply IH.
Qed.

Lemma eqb_refl (a : jsstring) : JsString.eqb a a = true.
Proof. now apply eqb_eq. Qed.

Lemma startsWith_prefix (p s : jsstring) :
  JsString.startsWith p s = true <-> exists rest, s = p ++ rest.
Proof.
  revert s; induction p as [|x p IH]; intros s; simpl.
  - split; [intros _; now exists s | reflexivity].
  - destruct s as [|y s].
    + split; [discriminate | intros [r Hr]; discriminate].
    + rewrite andb_true_iff, N.eqb_eq, IH. split.
      * intros [-> [r ->]]. now exists r.
      * intros [r Hr]. injection Hr as -> ->. split; [reflexivity | now exists r].
Qed.

(** [includes] is the substring relation. *)
Lemma includes_substring (p s : jsstring) :
  JsString.includes p s = true <-> exists before after, s = before ++ p ++ after.
Proof.
  induction s as [|c s IH].
  - simpl. rewrite orb_false_r, startsWith_prefix. split.
    + intros [r Hr]. now exists [], r.
    + intros [[|b before] [after H]]; [now exists after | discriminate].
  - cbn [JsString.includes]. rewrite orb_true_iff, startsWith_prefix, IH. split.
    + intros [[r Hr] | [before [after H]]].
      * now exists [], r.
      * exists (c :: before), after. simpl. now rewrite H.
    + intros [[|b before] [after H]].
      * left. now exists after.
      * right. injection H as _ H. now exists before, after.
Qed.

Lemma trimStart_blank (s : jsstring) :
  JsString.trimStart s = [] <-> forallb JsString.is_ws s = true.
Proof.
  induction s as [|c s IH]; simpl.
  - split; reflexivity.
  - destruct (JsString.is_ws c); simpl.
    + exact IH.
    + split; discriminate.
Qed.

Lemma trimStart_suffix (s : jsstring) :
  exists pre, s = pre ++ JsString.trimStart s /\ forallb JsString.is_ws pre = true.
Proof.
  induction s as [|c s [pre [H1 H2]]]; simpl.
  - now exists [].
  - destruct (JsString.is_ws c) eqn:E.
    + exists (c :: pre). simpl. rewrite E, H2. split; [now f_equal | reflexivity].
    + now exists [].
Qed.

Lemma forallb_rev {A} (f : A -> bool) (l : list A) :
  forallb f (rev l) = forallb f l.
Proof.
  induction l as [|x l IH]; simpl; [reflexivity|].
  rewrite forallb_app, IH. simpl. rewrite andb_true_r. apply andb_comm.
Qed.

(** [trim] leaves nothing exactly when every code unit is white space. *)
Lemma trim_blank_iff (s : jsstring) :
  JsString.trim s = [] <-> forallb JsString.is_ws s = true.
Proof.
  unfold JsString.trim, JsString.trimEnd.
  destruct (trimStart_suffix s) as [pre [Hs Hpre]].
  split.
  - intros H.
    assert (H' : JsString.trimStart (rev (JsString.trimStart s)) = []).
    { destruct (JsString.trimStart (rev (JsString.trimStart s))) as [|x l];
        [reflexivity|].
      simpl in H. now destruct (rev l). }
    apply trimStart_blank in H'. rewrite forallb_rev in H'.
    rewrite Hs, forallb_app, Hpre, H'. reflexivity.
  - intros H. apply trimStart_blank in H. rewrite H. reflexivity.
Qed.

Lemma substring0_length (n : N) (s : jsstring) :
  (JsString.length (JsString.substring0 n s) <= n)%N.
Proof.
  unfold JsString.length, JsString.substring0.
  pose proof (firstn_le_length (N.to_nat n) s). lia.
Qed.

(** ** The text path *)

Lemma prompt_not_inherited :
  own_property Object_prototype (js "prompt") = None.
Proof. reflexivity. Qed.

Lemma truthy_trim (p : jsstring) :
  truthy (VStr (JsString.trim p)) = negb (forallb JsString.is_ws p).
Proof.
  destruct (forallb JsString.is_ws p) eqn:E.
  - apply trim_blank_iff in E. now rewrite E.
  - destruct (JsString.trim p) eqn:T; [|reflexivity].
    apply trim_blank_iff in T. congruence.
Qed.

(** X28: a JSON request whose body is an object without a prompt
    property, or with a prompt that is a string of white space only (the
    empty string included), gets status 400 with the error message 'Prompt
    is required', and no call to the provider is made. *)
Theorem X28_blank_prompt_rejected
    (env : Env) (request : Request) (props : list (jsstring * value)) :
  is_form_data request = false ->
  json request = Returns (VObj props) ->
  (own_property props (js "prompt") = None
   \/ exists p, own_property props (js "prompt") = Some (VStr p)
                /\ forallb JsString.is_ws p = true) ->
  exists resp,
    POST env request = ([], Returns resp)
    /\ status resp = 400%Z
    /\ json_property (body resp) (js "success") = Some (VBool false)
    /\ json_property (body resp) (js "error") = Some (VStr (js "Prompt is required")).
Proof.
  intros Hct Hjson Hprompt.
  exists prompt_required.
  split; [|repeat split].
  unfold POST, handleTextRequest. rewrite Hct, Hjson.
  cbn [await bind try_catch destructure_prompt ret app].
  unfold get_property. cbn [to_string].
  destruct Hprompt as [Habsent | [p [Hp Hblank]]].
  - rewrite Habsent, prompt_not_inherited. reflexivity.
  - rewrite Hp, truthy_trim, Hblank. reflexivity.
Qed.

Lemma X28_blank_prompt_rejected_witness :
  exists resp,
    POST (answering_env (js "ok")) (json_request (prompt_body "   ")) = ([], Returns resp)
    /\ status resp = 400%Z
    /\ json_property (body resp) (js "success") = Some (VBool false)
    /\ json_property (body resp) (js "error") = Some (VStr (js "Prompt is required")).
Proof.
  apply (X28_blank_prompt_rejected (answering_env (js "ok"))
           (json_request (prompt_body "   ")) [(js "prompt", VStr (js "   "))]).
  - reflexivity.
  - reflexivity.
  - right. exists (js "   "). split; reflexivity.
Defined.

(** C3 at a body without a prompt field, the JSON literal null: the
    destructuring of the body throws before the prompt is tested, so the
    answer is not 400 'Prompt is required' but the 500 of the catch
    clause, with the engine's message in the error text and the stack
    trace as details.  No call to the provider is made. *)
Theorem C3_null_body_answered_500 :
  let request := json_request VNull in
  is_form_data request = false
  /\ json request = Returns VNull
  /\ exists resp msg trace,
       POST (answering_env (js "ok")) request = ([], Returns resp)
       /\ status resp = 500%Z
       /\ status resp <> 400%Z
       /\ json_property (body resp) (js "success") = Some (VBool false)
       /\ json_property (body resp) (js "error")
          = Some (VStr (js "Text analysis failed: " ++ msg))
       /\ json_property (body resp) (js "error")
          <> Some (VStr (js "Prompt is required"))
       /\ json_property (body resp) (js "details") = Some (VStr trace).
Proof.
  cbv zeta. split; [reflexivity|]. split; [reflexivity|].
  eexists _, _, _. split; [reflexivity|].
  split; [reflexivity|]. split; [discriminate|].
  split; [reflexivity|]. split; [reflexivity|].
  split; [discriminate | reflexivity].
Qed.

(** C7, as the route has it: a JSON request whose prompt is a string
    that is not blank, and whose provider call returns a text, gets status
    200 with success true, that text as the response whatever it is (the
    handler does not test it, so an empty text gives an empty response),
    and a metadata object whose promptLength is the length of the prompt. *)
Theorem C7_text_prompt_answered
    (env : Env) (request : Request) (props : list (jsstring * value))
    (p text : jsstring) :
  is_form_data request = false ->
  json request = Returns (VObj props) ->
  own_property props (js "prompt") = Some (VStr p) ->
  forallb JsString.is_ws p = false ->
  provider env (text_call env p) = Returns text ->
  exists resp metadata,
    POST env request = ([text_call env p], Returns resp)
    /\ status resp = 200%Z
    /\ json_property (body resp) (js "success") = Some (VBool true)
    /\ json_property (body resp) (js "response") = Some (VStr text)
    /\ json_property (body resp) (js "metadata") = Some metadata
    /\ json_property metadata (js "promptLength")
       = Some (VNum (Z.of_N (JsString.length p)))
    /\ json_property metadata (js "responseLength")
       = Some (VNum (Z.of_N (JsString.length text))).
Proof.
  intros Hct Hjson Hp Hblank Hprov.
  unfold POST, handleTextRequest. rewrite Hct, Hjson.
  cbn [await bind try_catch destructure_prompt ret app].
  unfold get_property. cbn [to_string]. rewrite Hp, truthy_trim, Hblank.
  cbn [negb]. unfold generateContent. fold (text_call env p). rewrite Hprov.
  cbn [bind try_catch ret app].
  eexists _, _. split; [reflexivity|].
  repeat split.
Qed.

Lemma C7_text_prompt_answered_witness :
  exists resp metadata,
    POST (answering_env (js "Strong resume."))
         (json_request (prompt_body "Review my resume"))
    = ([text_call (answering_env (js "Strong resume.")) (js "Review my resume")],
       Returns resp)
    /\ status resp = 200%Z
    /\ json_property (body resp) (js "success") = Some (VBool true)
    /\ json_property (body resp) (js "response") = Some (VStr (js "Strong resume."))
    /\ json_property (body resp) (js "metadata") = Some metadata
    /\ json_property metadata (js "promptLength") = Some (VNum 16)
    /\ json_property metadata (js "responseLength") = Some (VNum 14).
Proof.
  apply (C7_text_prompt_answered (answering_env (js "Strong resume."))
           (json_request (prompt_body "Review my resume"))
           [(js "prompt", VStr (js "Review my resume"))]
           (js "Review my resume") (js "Strong resume.")).
  - reflexivity.
  - reflexivity.
  - reflexivity.
  - reflexivity.
  - reflexivity.
Defined.

(** A provider that returns the empty text: the answer is 200 with
    success true and an empty response. *)
Lemma C7_counterexample :
  let env := answering_env [] in
  let request := json_request (prompt_body "Review my resume") in
  forallb JsString.is_ws (js "Review my resume") = false
  /\ provider env (text_call env (js "Review my resume")) = Returns []
  /\ exists resp,
       POST env request = ([text_call env (js "Review my resume")], Returns resp)
       /\ status resp = 200%Z
       /\ json_property (body resp) (js "success") = Some (VBool true)
       /\ json_property (body resp) (js "response") = Some (VStr [])
       /\ JsString.length [] = 0%N.
Proof.
  cbv zeta. split; [reflexivity|]. split; [reflexivity|].
  eexists. repeat split.
Qed.

(** ** GET *)

(** The model name is the environment's when that is a non-empty string,
    and the default otherwise. *)
Lemma MODEL_NAME_configured (env : Env) :
  MODEL_NAME env
  = match NEXT_PUBLIC_MODEL_NAME env with
    | Some (c :: s) => c :: s
    | _ => js "gemini-1.5-flash"
    end.
Proof.
  unfold MODEL_NAME, or_else.
  destruct (NEXT_PUBLIC_MODEL_NAME env) as [[|c s]|]; reflexivity.
Qed.

(** C9: whatever the request, GET answers with status 200 and a body
    holding the configured model name, the ten labels of the supported
    file types in their order, and the maximum file size as '10MB'. *)
Theorem C9_get_capabilities (env : Env) (request : Request) :
  status (GET env request) = 200%Z
  /\ json_property (body (GET env request)) (js "model") = Some (VStr (MODEL_NAME env))
  /\ json_property (body (GET env request)) (js "supportedFileTypes")
     = Some (VArr (map (fun l => VStr (js l))
          ["PDF"; "TXT"; "Markdown"; "DOC"; "DOCX"; "CSV"; "JPEG"; "PNG"; "WebP"; "JSON"]%string))
  /\ List.length (Object_values SUPPORTED_TYPES) = 10%nat
  /\ json_property (body (GET env request)) (js "maxFileSize") = Some (VStr (js "10MB"))
  /\ forall request', GET env request' = GET env request.
Proof.
  repeat split.
Qed.

(** ** Dispatch *)

Lemma try_catch_ret {A} (m : M A) (h : JsError -> A) :
  try_catch m (fun e => ret (h e))
  = (fst m, Returns match snd m with Returns a => a | Throws e => h e end).
Proof.
  destruct m as [calls [a | e]]; simpl; [reflexivity|].
  now rewrite app_nil_r.
Qed.

Lemma handleTextRequest_returns (env : Env) (request : Request) :
  exists calls resp, handleTextRequest env request = (calls, Returns resp).
Proof. unfold handleTextRequest. rewrite try_catch_ret. eauto. Qed.

Lemma handleFileUpload_returns (env : Env) (request : Request) :
  exists calls resp, handleFileUpload env request = (calls, Returns resp).
Proof. unfold handleFileUpload. rewrite try_catch_ret. eauto. Qed.

(** Neither handler throws, so [POST] is the handler it dispatches to. *)
Lemma POST_dispatch (env : Env) (request : Request) :
  POST env request
  = if is_form_data request then handleFileUpload env request
    else handleTextRequest env request.
Proof.
  unfold POST. destruct (is_form_data request).
  - destruct (handleFileUpload_returns env request) as [c [r ->]]. reflexivity.
  - destruct (handleTextRequest_returns env request) as [c [r ->]]. reflexivity.
Qed.

(** ** The file path: validation *)

Lemma MAX_FILE_SIZE_bytes : MAX_FILE_SIZE = 10485760%N.
Proof. reflexivity. Qed.

Lemma file_error_response_status (e : JsError) :
  In (status (file_error_response e)) [401; 429; 400; 500]%Z.
Proof.
  unfold file_error_response.
  destruct (_ || _); [simpl; tauto|].
  destruct (_ || _); [simpl; tauto|].
  destruct (_ && _); simpl; tauto.
Qed.

Lemma file_error_response_not_413 (e : JsError) :
  status (file_error_response e) <> 413%Z.
Proof.
  pose proof (file_error_response_status e) as H. simpl in H.
  intros E. rewrite E in H. intuition discriminate.
Qed.

(** C4: a multipart request whose file is larger than 10 * 1024 * 1024
    bytes gets status 413 whatever the type of the file, without a call to
    the provider; a file of exactly that size does not get status 413. *)
Theorem C4_file_size_limit
    (env : Env) (request : Request) (fd : FormData) (f : File) :
  is_form_data request = true ->
  formData request = Returns fd ->
  FormData_get fd (js "file") = VFile f ->
  ((10 * 1024 * 1024 < size f)%N ->
     exists resp, POST env request = ([], Returns resp) /\ status resp = 413%Z)
  /\ (size f = (10 * 1024 * 1024)%N ->
     exists calls resp,
       POST env request = (calls, Returns resp) /\ status resp <> 413%Z).
Proof.
  intros Hct Hfd Hfile. rewrite POST_dispatch, Hct.
  unfold handleFileUpload. rewrite try_catch_ret, Hfd.
  cbn [await bind]. rewrite Hfile. cbn [truthy negb entry_size greater_than].
  fold MAX_FILE_SIZE. split.
  - intros Hbig. apply N2Z.inj_lt, Z.ltb_lt in Hbig. rewrite Hbig.
    eexists. split; reflexivity.
  - intros Heq. rewrite Heq, Z.ltb_irrefl.
    eexists _, _. split; [reflexivity|].
    destruct (negb (truthy (get_property SUPPORTED_TYPES (entry_type (VFile f))))).
    + cbn. discriminate.
    + destruct (or_else (FormData_get fd (js "prompt")) (VStr DEFAULT_PROMPT));
        cbn [snd throw ret]; try apply file_error_response_not_413.
      unfold generateContent, bind.
      destruct (provider env _) as [a | e]; cbn [snd ret app].
      * cbn. discriminate.
      * apply file_error_response_not_413.
Qed.

Lemma C4_file_size_limit_witness :
  (exists resp,
     POST (answering_env (js "ok"))
       (multipart_request [(js "file", FileEntry (sample_file "application/pdf" 10485761 []))])
     = ([], Returns resp) /\ status resp = 413%Z)
  /\ (exists calls resp,
     POST (answering_env (js "ok"))
       (multipart_request [(js "file", FileEntry (sample_file "application/pdf" 10485760 []))])
     = (calls, Returns resp) /\ status resp <> 413%Z).
Proof.
  split.
  - apply (C4_file_size_limit (answering_env (js "ok"))
             (multipart_request [(js "file", FileEntry (sample_file "application/pdf" 10485761 []))])
             [(js "file", FileEntry (sample_file "application/pdf" 10485761 []))]
             (sample_file "application/pdf" 10485761 []));
      reflexivity.
  - apply (C4_file_size_limit (answering_env (js "ok"))
             (multipart_request [(js "file", FileEntry (sample_file "application/pdf" 10485760 []))])
             [(js "file", FileEntry (sample_file "application/pdf" 10485760 []))]
             (sample_file "application/pdf" 10485760 []));
      reflexivity.
Defined.

(** ** The file path: a file that passes validation *)

Lemma own_property_In {A} (props : list (jsstring * A)) (k : jsstring) (v : A) :
  own_property props k = Some v -> In (k, v) props.
Proof.
  induction props as [|[k' v'] props IH]; simpl; [discriminate|].
  destruct (JsString.eqb k' k) eqn:E.
  - apply eqb_eq in E. intros [= ->]. left. now subst.
  - intros H. right. now apply IH.
Qed.

Lemma own_property_keys {A} (props : list (jsstring * A)) (k : jsstring) :
  In k (map fst props) -> exists v, own_property props k = Some v.
Proof.
  induction props as [|[k' v'] props IH]; simpl; [tauto|].
  intros [-> | H].
  - rewrite eqb_refl. eauto.
  - destruct (JsString.eqb k' k); eauto.
Qed.

Lemma own_property_app {A} (a b : list (jsstring * A)) (k : jsstring) :
  own_property (a ++ b) k
  = match own_property a k with Some v => Some v | None => own_property b k end.
Proof.
  induction a as [|[k' v'] a IH]; simpl; [reflexivity|].
  destruct (JsString.eqb k' k); [reflexivity | exact IH].
Qed.

(** Every entry of the allow-list is a non-empty label. *)
Lemma supported_label (t : jsstring) :
  In t supported_mime_types ->
  exists label,
    get_property SUPPORTED_TYPES (VStr t) = VStr label
    /\ truthy (VStr label) = true
    /\ In (VStr label) (Object_values SUPPORTED_TYPES).
Proof.
  intros H. apply own_property_keys in H as [v Hv].
  unfold get_property. cbn [to_string]. rewrite Hv.
  apply own_property_In in Hv.
  assert (Hin : In v (Object_values SUPPORTED_TYPES))
    by (apply (in_map snd) in Hv; exact Hv).
  unfold Object_values, SUPPORTED_TYPES in Hin. cbn [map snd] in Hin.
  repeat (destruct Hin as [<- | Hin];
          [eexists; split; [reflexivity | split; [reflexivity|]];
           unfold Object_values, SUPPORTED_TYPES; cbn [map snd In]; tauto|]).
  destruct Hin.
Qed.

Lemma supported_label_own (t : jsstring) :
  In t supported_mime_types ->
  exists label,
    own_property SUPPORTED_TYPES t = Some (VStr label)
    /\ get_property SUPPORTED_TYPES (VStr t) = VStr label
    /\ truthy (VStr label) = true.
Proof.
  intros H. destruct (supported_label t H) as [label [Hget [Htruthy _]]].
  exists label. split; [|split; assumption].
  apply own_property_keys in H as [v Hv].
  unfold get_property in Hget. cbn [to_string] in Hget. rewrite Hv in Hget.
  now subst.
Qed.

(** What [handleFileUpload] does with a file within the size limit, of a
    type that [SUPPORTED_TYPES] maps to a truthy value, when the prompt is
    a string: one provider call, and the answer built from its outcome. *)
Lemma handleFileUpload_valid
    (env : Env) (request : Request) (fd : FormData) (f : File) (p : jsstring) :
  formData request = Returns fd ->
  FormData_get fd (js "file") = VFile f ->
  (size f <= MAX_FILE_SIZE)%N ->
  truthy (get_property SUPPORTED_TYPES (VStr (type f))) = true ->
  or_else (FormData_get fd (js "prompt")) (VStr DEFAULT_PROMPT) = VStr p ->
  let instruction :=
    or_else (FormData_get fd (js "instruction")) (VStr DEFAULT_INSTRUCTION) in
  let supportedType := get_property SUPPORTED_TYPES (VStr (type f)) in
  let call := file_call env instruction f supportedType p in
  handleFileUpload env request
  = ([call],
     Returns match provider env call with
             | Returns analysis => file_success env f supportedType analysis
             | Throws e => file_error_response e
             end).
Proof.
  intros Hfd Hfile Hsize Hsup Hp instruction supportedType call.
  unfold handleFileUpload. rewrite try_catch_ret, Hfd.
  cbn [await bind]. rewrite Hfile, Hp.
  cbn [truthy negb entry_size entry_type greater_than].
  assert (Hle : (Z.of_N MAX_FILE_SIZE <? Z.of_N (size f))%Z = false)
    by (apply Z.ltb_ge; lia).
  rewrite Hle, Hsup. cbn [negb].
  unfold generateContent, bind. fold instruction supportedType.
  fold (file_call env instruction f supportedType p). fold call.
  destruct (provider env call); reflexivity.
Qed.

(** C8: a multipart upload of a file of type application/pdf, at most
    10 MB large, whose provider call succeeds, gets status 200 and a
    metadata object whose fileType is the string 'PDF'. *)
Theorem C8_pdf_metadata
    (env : Env) (request : Request) (fd : FormData) (f : File)
    (call : ProviderCall) (analysis : jsstring) :
  is_form_data request = true ->
  formData request = Returns fd ->
  FormData_get fd (js "file") = VFile f ->
  type f = js "application/pdf" ->
  (size f <= 10 * 1024 * 1024)%N ->
  fst (POST env request) = [call] ->
  provider env call = Returns analysis ->
  exists resp metadata,
    snd (POST env request) = Returns resp
    /\ status resp = 200%Z
    /\ json_property (body resp) (js "success") = Some (VBool true)
    /\ json_property (body resp) (js "metadata") = Some metadata
    /\ json_property metadata (js "fileType") = Some (VStr (js "PDF")).
Proof.
  intros Hct Hfd Hfile Htype Hsize Hcalls Hprov.
  rewrite POST_dispatch, Hct in *.
  destruct (or_else (FormData_get fd (js "prompt")) (VStr DEFAULT_PROMPT)) eqn:Hp.
  5: {
    assert (Hsup : truthy (get_property SUPPORTED_TYPES (VStr (type f))) = true)
      by (rewrite Htype; reflexivity).
    pose proof (handleFileUpload_valid env request fd f s Hfd Hfile Hsize Hsup Hp) as H.
    cbv zeta in H. rewrite H in *. cbn [fst snd] in *.
    injection Hcalls as <-. rewrite Hprov, Htype.
    eexists _, _. repeat split. }
  all: exfalso; revert Hcalls; unfold handleFileUpload;
    rewrite try_catch_ret, Hfd; cbn [await bind]; rewrite Hfile, Hp;
    cbn [truthy negb entry_size entry_type greater_than];
    destruct (_ <? _)%Z; [discriminate|]; rewrite Htype;
    cbn; discriminate.
Qed.

Lemma C8_pdf_metadata_witness :
  exists resp metadata,
    snd (POST (answering_env (js "A fine resume."))
           (multipart_request
              [(js "file", FileEntry (sample_file "application/pdf" 5 hello_bytes))]))
    = Returns resp
    /\ status resp = 200%Z
    /\ json_property (body resp) (js "success") = Some (VBool true)
    /\ json_property (body resp) (js "metadata") = Some metadata
    /\ json_property metadata (js "fileType") = Some (VStr (js "PDF")).
Proof.
  apply (C8_pdf_metadata (answering_env (js "A fine resume."))
           (multipart_request
              [(js "file", FileEntry (sample_file "application/pdf" 5 hello_bytes))])
           [(js "file", FileEntry (sample_file "application/pdf" 5 hello_bytes))]
           (sample_file "application/pdf" 5 hello_bytes)
           (file_call (answering_env (js "A fine resume."))
              (VStr DEFAULT_INSTRUCTION)
              (sample_file "application/pdf" 5 hello_bytes)
              (VStr (js "PDF")) DEFAULT_PROMPT)
           (js "A fine resume.")).
  - reflexivity.
  - reflexivity.
  - reflexivity.
  - reflexivity.
  - vm_compute. discriminate.
  - reflexivity.
  - reflexivity.
Defined.

(** ** The file path: what is sent to the provider *)

(** The types of the allow-list sent as inline data are the three image
    types and PDF. *)
Lemma inline_supported_types :
  filter (fun t => JsString.startsWith (js "image/") t
                   || JsString.eqb t (js "application/pdf"))
         supported_mime_types
  = [js "application/pdf"; js "image/jpeg"; js "image/png"; js "image/webp"].
Proof. reflexivity. Qed.

(** C2: for an upload that passes validation (a file of a type of the
    allow-list, within the size limit, the prompt field a string or
    absent) exactly one provider call is made.  When the type starts with
    'image/' or is application/pdf, its contents are a text part and the
    base64 encoding of the file bytes as inline data under the file's MIME
    type.  For every other type of the allow-list its contents are a single
    text prompt ending in the UTF-8 decoding of the bytes cut to its first
    15000 code units. *)
Theorem C2_file_contents
    (env : Env) (request : Request) (fd : FormData) (f : File) :
  is_form_data request = true ->
  formData request = Returns fd ->
  FormData_get fd (js "file") = VFile f ->
  (size f <= 10 * 1024 * 1024)%N ->
  In (type f) supported_mime_types ->
  (forall g, FormData_get fd (js "prompt") <> VFile g) ->
  exists call instruction label p,
    fst (POST env request) = [call]
    /\ instruction
       = or_else (FormData_get fd (js "instruction")) (VStr DEFAULT_INSTRUCTION)
    /\ own_property SUPPORTED_TYPES (type f) = Some (VStr label)
    /\ VStr p = or_else (FormData_get fd (js "prompt")) (VStr DEFAULT_PROMPT)
    /\ ((exists subtype, type f = js "image/" ++ subtype)
        \/ type f = js "application/pdf" ->
        contents call
        = Parts [ TextPart (prompt_header instruction f (VStr label) p
                            ++ js "Please analyze this document:");
                  InlineData (type f) (Platform.base64 (content f)) ])
    /\ (~ (exists subtype, type f = js "image/" ++ subtype) ->
        type f <> js "application/pdf" ->
        exists extractedText,
          extractedText = JsString.substring0 15000 (Platform.utf8_decode (content f))
          /\ (JsString.length extractedText <= 15000)%N
          /\ contents call
             = TextPrompt (prompt_header instruction f (VStr label) p
                           ++ js "File Content:" ++ [10] ++ extractedText)).
Proof.
  intros Hct Hfd Hfile Hsize Hsup Hprompt.
  destruct (supported_label_own _ Hsup) as [label [Hown [Hlabel Htruthy]]].
  assert (Hp : exists p,
    or_else (FormData_get fd (js "prompt")) (VStr DEFAULT_PROMPT) = VStr p).
  { unfold or_else, FormData_get in *.
    destruct (own_property fd (js "prompt")) as [[s | g]|];
      cbn [entry_value truthy] in *; eauto.
    - destruct s; eauto.
    - now destruct (Hprompt g). }
  destruct Hp as [p Hp].
  assert (Hsup' : truthy (get_property SUPPORTED_TYPES (VStr (type f))) = true)
    by (rewrite Hlabel; exact Htruthy).
  pose proof (handleFileUpload_valid env request fd f p Hfd Hfile Hsize Hsup' Hp) as H.
  cbv zeta in H. rewrite Hlabel in H.
  eexists _, _, label, p.
  rewrite POST_dispatch, Hct, H. cbn [fst].
  split; [reflexivity|]. split; [reflexivity|].
  split; [exact Hown|]. split; [symmetry; exact Hp|].
  unfold file_call, file_contents. cbn [contents].
  split.
  - intros Hbin.
    assert (Hb : JsString.startsWith (js "image/") (type f)
                 || JsString.eqb (type f) (js "application/pdf") = true).
    { apply orb_true_iff. destruct Hbin as [Himg | Hpdf].
      - left. now apply startsWith_prefix.
      - right. now apply eqb_eq. }
    rewrite Hb. reflexivity.
  - intros Himg Hpdf.
    assert (Hb : JsString.startsWith (js "image/") (type f)
                 || JsString.eqb (type f) (js "application/pdf") = false).
    { apply orb_false_iff. split.
      - destruct (JsString.startsWith _ _) eqn:E; [|reflexivity].
        apply startsWith_prefix in E. contradiction.
      - destruct (JsString.eqb _ _) eqn:E; [|reflexivity].
        apply eqb_eq in E. contradiction. }
    rewrite Hb. eexists. split; [reflexivity|].
    split; [apply substring0_length | reflexivity].
Qed.

Lemma C2_file_contents_witness :
  let f := sample_file "text/plain" 5 hello_bytes in
  let request := multipart_request [(js "file", FileEntry f)] in
  exists call instruction label p,
    fst (POST (answering_env (js "ok")) request) = [call]
    /\ instruction
       = or_else (FormData_get [(js "file", FileEntry f)] (js "instruction"))
           (VStr DEFAULT_INSTRUCTION)
    /\ own_property SUPPORTED_TYPES (type f) = Some (VStr label)
    /\ VStr p = or_else (FormData_get [(js "file", FileEntry f)] (js "prompt"))
                  (VStr DEFAULT_PROMPT)
    /\ ((exists subtype, type f = js "image/" ++ subtype)
        \/ type f = js "application/pdf" ->
        contents call
        = Parts [ TextPart (prompt_header instruction f (VStr label) p
                            ++ js "Please analyze this document:");
                  InlineData (type f) (Platform.base64 (content f)) ])
    /\ (~ (exists subtype, type f = js "image/" ++ subtype) ->
        type f <> js "application/pdf" ->
        exists extractedText,
          extractedText = JsString.substring0 15000 (Platform.utf8_decode (content f))
          /\ (JsString.length extractedText <= 15000)%N
          /\ contents call
             = TextPrompt (prompt_header instruction f (VStr label) p
                           ++ js "File Content:" ++ [10] ++ extractedText)).
Proof.
  intros f request.
  apply (C2_file_contents (answering_env (js "ok")) request
           [(js "file", FileEntry f)] f).
  - reflexivity.
  - reflexivity.
  - reflexivity.
  - vm_compute. discriminate.
  - vm_compute. tauto.
  - intros g. vm_compute. discriminate.
Defined.

(** The two branches on sample uploads. *)
Example text_upload_call :
  fst (POST (answering_env (js "ok"))
         (multipart_request
            [(js "file", FileEntry (sample_file "text/plain" 5 hello_bytes));
             (js "prompt", StringEntry (js "Summarise"))]))
  = [ {| model := js "gemini-1.5-flash";
         generationConfig := file_generationConfig;
         contents := TextPrompt
           (js "Extract key information, summarize content, and provide analysis"
            ++ [10; 10] ++ js "File: resume" ++ [10] ++ js "Type: TXT" ++ [10]
            ++ js "Size: 0.0 KB" ++ [10; 10] ++ js "Prompt: Summarise" ++ [10; 10]
            ++ js "File Content:" ++ [10] ++ js "Hello") |} ].
Proof. reflexivity. Qed.

Example image_upload_call :
  fst (POST (answering_env (js "ok"))
         (multipart_request
            [(js "file", FileEntry (sample_file "image/png" 5 hello_bytes));
             (js "instruction", StringEntry (js "Describe"))]))
  = [ {| model := js "gemini-1.5-flash";
         generationConfig := file_generationConfig;
         contents := Parts
           [ TextPart
               (js "Describe"
                ++ [10; 10] ++ js "File: resume" ++ [10] ++ js "Type: PNG" ++ [10]
                ++ js "Size: 0.0 KB" ++ [10; 10]
                ++ js "Prompt: Please analyze this file content and provide key insights"
                ++ [10; 10] ++ js "Please analyze this document:");
             InlineData (js "image/png") (js "SGVsbG8=") ] |} ].
Proof. reflexivity. Qed.

(** ** The file path: optional fields *)

Lemma FormData_get_default_fields (fd : FormData) (field : jsstring) :
  FormData_get (fd ++ default_fields) field
  = match own_property fd field with
    | Some e => entry_value e
    | None => FormData_get default_fields field
    end.
Proof.
  unfold FormData_get. rewrite own_property_app.
  now destruct (own_property fd field).
Qed.

Lemma or_else_default (fd : FormData) (field : jsstring) (d : jsstring) :
  FormData_get default_fields field = VNull
  \/ FormData_get default_fields field = VStr d ->
  or_else (FormData_get (fd ++ default_fields) field) (VStr d)
  = or_else (FormData_get fd field) (VStr d).
Proof.
  rewrite FormData_get_default_fields.
  change (FormData_get fd field)
    with (match own_property fd field with
          | Some e => entry_value e
          | None => VNull
          end).
  destruct (own_property fd field) as [e|]; [reflexivity|].
  intros [-> | ->]; [reflexivity|].
  unfold or_else. cbn [truthy]. now destruct d.
Qed.

(** C10: a multipart request with a file that leaves out the prompt field
    or the instruction field is handled exactly as the same request with
    the missing fields holding the default prompt and the default
    instruction; when both are left out and the file passes validation,
    the one provider call is built from the two defaults. *)
Theorem C10_optional_fields_default
    (env : Env) (request : Request) (fd : FormData) (f : File) :
  is_form_data request = true ->
  formData request = Returns fd ->
  FormData_get fd (js "file") = VFile f ->
  own_property fd (js "prompt") = None \/ own_property fd (js "instruction") = None ->
  POST env request = POST env (with_formData request (fd ++ default_fields))
  /\ (own_property fd (js "prompt") = None ->
      FormData_get (fd ++ default_fields) (js "prompt")
      = VStr (js "Please analyze this file content and provide key insights"))
  /\ (own_property fd (js "instruction") = None ->
      FormData_get (fd ++ default_fields) (js "instruction")
      = VStr (js "Extract key information, summarize content, and provide analysis"))
  /\ (own_property fd (js "prompt") = None ->
      own_property fd (js "instruction") = None ->
      (size f <= 10 * 1024 * 1024)%N ->
      In (type f) supported_mime_types ->
      exists label,
        fst (POST env request)
        = [file_call env (VStr DEFAULT_INSTRUCTION) f (VStr label) DEFAULT_PROMPT]).
Proof.
  intros Hct Hfd Hfile Homit.
  split; [|split; [|split]].
  - rewrite !POST_dispatch.
    replace (is_form_data (with_formData request (fd ++ default_fields)))
      with (is_form_data request) by reflexivity.
    rewrite Hct. unfold handleFileUpload. rewrite Hfd.
    cbn [with_formData formData await bind].
    rewrite (or_else_default fd (js "prompt") DEFAULT_PROMPT) by (right; reflexivity).
    rewrite (or_else_default fd (js "instruction") DEFAULT_INSTRUCTION)
      by (right; reflexivity).
    assert (Hget : FormData_get (fd ++ default_fields) (js "file")
                   = FormData_get fd (js "file")).
    { rewrite FormData_get_default_fields. unfold FormData_get in *.
      destruct (own_property fd (js "file")); [reflexivity | discriminate]. }
    rewrite Hget. reflexivity.
  - intros H. rewrite FormData_get_default_fields, H. reflexivity.
  - intros H. rewrite FormData_get_default_fields, H. reflexivity.
  - intros Hp Hi Hsize Hsup.
    destruct (supported_label _ Hsup) as [label [Hlabel [Htruthy _]]].
    assert (Hsup' : truthy (get_property SUPPORTED_TYPES (VStr (type f))) = true)
      by (rewrite Hlabel; exact Htruthy).
    assert (Hp' : or_else (FormData_get fd (js "prompt")) (VStr DEFAULT_PROMPT)
                  = VStr DEFAULT_PROMPT)
      by (unfold FormData_get; rewrite Hp; reflexivity).
    pose proof (handleFileUpload_valid env request fd f DEFAULT_PROMPT
                  Hfd Hfile Hsize Hsup' Hp') as H.
    cbv zeta in H. rewrite Hlabel in H.
    unfold FormData_get at 1 in H. rewrite Hi in H.
    exists label. rewrite POST_dispatch, Hct, H. reflexivity.
Qed.

Lemma C10_optional_fields_default_witness :
  let f := sample_file "text/csv" 5 hello_bytes in
  let request := multipart_request [(js "file", FileEntry f)] in
  exists label,
    fst (POST (answering_env (js "ok")) request)
    = [file_call (answering_env (js "ok")) (VStr DEFAULT_INSTRUCTION) f
         (VStr label) DEFAULT_PROMPT].
Proof.
  intros f request.
  apply (C10_optional_fields_default (answering_env (js "ok")) request
           [(js "file", FileEntry f)] f).
  - reflexivity.
  - reflexivity.
  - reflexivity.
  - left. reflexivity.
  - reflexivity.
  - reflexivity.
  - vm_compute. discriminate.
  - vm_compute. tauto.
Defined.

(** ** Provider errors *)

Ltac run := cbn [await bind destructure_prompt throw ret app fst snd].

(** When [handleTextRequest] makes a call, its answer is built from the
    outcome of that call. *)
Lemma handleTextRequest_call (env : Env) (request : Request) (call : ProviderCall) :
  fst (handleTextRequest env request) = [call] ->
  exists p,
    call = text_call env p
    /\ snd (handleTextRequest env request)
       = Returns match provider env call with
                 | Returns text => text_success env p text
                 | Throws e => text_error_response e
                 end.
Proof.
  unfold handleTextRequest. rewrite try_catch_ret.
  destruct (json request) as [b | e]; run; [|discriminate].
  destruct b as [| |b|z|s|items|props|fname|g]; run; try discriminate.
  destruct (get_property props (VStr (js "prompt"))) as [| |b|z|p|items|props'|fname|g];
    run; try discriminate.
  destruct (negb (truthy (VStr (JsString.trim p)))); run; [discriminate|].
  unfold generateContent. fold (text_call env p).
  destruct (provider env (text_call env p)) eqn:E; run;
    intros [= <-]; exists p; rewrite E; split; reflexivity.
Qed.

(** The same for [handleFileUpload]. *)
Lemma handleFileUpload_call (env : Env) (request : Request) (call : ProviderCall) :
  fst (handleFileUpload env request) = [call] ->
  exists f supportedType,
    snd (handleFileUpload env request)
    = Returns match provider env call with
              | Returns analysis => file_success env f supportedType analysis
              | Throws e => file_error_response e
              end.
Proof.
  unfold handleFileUpload. rewrite try_catch_ret.
  destruct (formData request) as [fd | e]; run; [|discriminate].
  destruct (negb (truthy (FormData_get fd (js "file")))); run; [discriminate|].
  destruct (greater_than _ _); run; [discriminate|].
  destruct (negb (truthy (get_property SUPPORTED_TYPES _))); run; [discriminate|].
  destruct (or_else (FormData_get fd (js "prompt")) (VStr DEFAULT_PROMPT));
    run; try discriminate.
  destruct (FormData_get fd (js "file")) as [| |b|z|s'|items|props|fname|f];
    run; try discriminate.
  unfold generateContent.
  match goal with |- context [provider env ?c] => set (sent := c) end.
  destruct (provider env sent) eqn:E; run; intros [= <-]; exists f;
    exists (get_property SUPPORTED_TYPES (VStr (type f)));
    rewrite E; reflexivity.
Qed.

(** C1, as the route has it: when the one provider call of a request
    throws, the answer is a failure whose status is decided by the first
    test that holds, in this order: the message includes 'API key' or
    'API_KEY_INVALID', status 401; it includes 'quota' or 'QUOTA', status
    429; the request is a file upload and the message includes both
    'invalid' and 'file', status 400; otherwise status 500, with the raw
    message at the end of the error text and the stack trace as details. *)
Theorem C1_error_mapping
    (env : Env) (request : Request) (call : ProviderCall) (e : JsError) :
  fst (POST env request) = [call] ->
  provider env call = Throws e ->
  exists resp,
    snd (POST env request) = Returns resp
    /\ json_property (body resp) (js "success") = Some (VBool false)
    /\ if message_includes e (js "API key")
          || message_includes e (js "API_KEY_INVALID")
       then status resp = 401%Z
       else if message_includes e (js "quota") || message_includes e (js "QUOTA")
       then status resp = 429%Z
       else if is_form_data request
               && (message_includes e (js "invalid") && message_includes e (js "file"))
       then status resp = 400%Z
       else status resp = 500%Z
            /\ json_property (body resp) (js "error")
               = Some (VStr ((if is_form_data request
                              then js "File analysis failed: "
                              else js "Text analysis failed: ")
                             ++ to_string (opt_value (message e))))
            /\ json_property (body resp) (js "details")
               = option_map VStr (stack e).
Proof.
  intros Hcalls Hthrow. rewrite POST_dispatch in *.
  destruct (is_form_data request).
  - destruct (handleFileUpload_call env request call Hcalls) as [f [st ->]].
    rewrite Hthrow. eexists. split; [reflexivity|].
    unfold file_error_response. cbn [andb].
    destruct (_ || _); [split; reflexivity|].
    destruct (_ || _); [split; reflexivity|].
    destruct (_ && _); [split; reflexivity|].
    repeat split. now destruct (stack e).
  - destruct (handleTextRequest_call env request call Hcalls) as [p [_ ->]].
    rewrite Hthrow. eexists. split; [reflexivity|].
    unfold text_error_response. cbn [andb].
    destruct (_ || _); [split; reflexivity|].
    destruct (_ || _); [split; reflexivity|].
    repeat split. now destruct (stack e).
Qed.

Lemma C1_error_mapping_witness :
  let e := error_of "429 Too Many Requests: quota exceeded" in
  exists resp,
    snd (POST (failing_env e) (json_request (prompt_body "Review my resume")))
    = Returns resp
    /\ json_property (body resp) (js "success") = Some (VBool false)
    /\ status resp = 429%Z.
Proof.
  intros e.
  destruct (C1_error_mapping (failing_env e)
              (json_request (prompt_body "Review my resume"))
              (text_call (failing_env e) (js "Review my resume")) e
              eq_refl eq_refl) as [resp [H1 [H2 H3]]].
  exists resp. split; [exact H1 | split; [exact H2 | exact H3]].
Defined.

(** Three provider errors on the text path: a message that includes
    'quota' is answered 401 when it also includes 'API key'; a message that
    includes neither 'API key' nor 'quota', and not both 'invalid' and
    'file', is answered 429 when it includes 'QUOTA'; and a message that
    includes 'invalid' and 'file' is answered 500, not 400. *)
Lemma C1_counterexample :
  (let e := error_of "API key quota exceeded" in
   let request := json_request (prompt_body "Review my resume") in
   message_includes e (js "quota") = true
   /\ exists call resp,
        POST (failing_env e) request = ([call], Returns resp)
        /\ provider (failing_env e) call = Throws e
        /\ status resp = 401%Z /\ status resp <> 429%Z)
  /\ (let e := error_of "RESOURCE_EXHAUSTED: QUOTA limit reached" in
      let request := json_request (prompt_body "Review my resume") in
      message_includes e (js "API key") = false
      /\ message_includes e (js "quota") = false
      /\ message_includes e (js "invalid") && message_includes e (js "file") = false
      /\ exists call resp,
           POST (failing_env e) request = ([call], Returns resp)
           /\ provider (failing_env e) call = Throws e
           /\ status resp = 429%Z /\ status resp <> 500%Z)
  /\ (let e := error_of "invalid file data" in
      let request := json_request (prompt_body "Review my resume") in
      message_includes e (js "invalid") && message_includes e (js "file") = true
      /\ exists call resp,
           POST (failing_env e) request = ([call], Returns resp)
           /\ provider (failing_env e) call = Throws e
           /\ status resp = 500%Z /\ status resp <> 400%Z).
Proof.
  repeat split; try reflexivity;
    eexists _, _; (split; [reflexivity | split; [reflexivity | split; [reflexivity | discriminate]]]).
Qed.

(** ** The envelope of the responses *)

Ltac envelope_tac :=
  unfold envelope; cbn; repeat split; eauto.

Lemma text_error_response_envelope (e : JsError) : envelope (text_error_response e).
Proof.
  unfold text_error_response.
  destruct (_ || _); [envelope_tac|].
  destruct (_ || _); envelope_tac.
Qed.

Lemma file_error_response_envelope (e : JsError) : envelope (file_error_response e).
Proof.
  unfold file_error_response.
  destruct (_ || _); [envelope_tac|].
  destruct (_ || _); [envelope_tac|].
  destruct (_ && _); envelope_tac.
Qed.

Lemma handleTextRequest_envelope (env : Env) (request : Request) :
  exists calls resp,
    handleTextRequest env request = (calls, Returns resp) /\ envelope resp.
Proof.
  unfold handleTextRequest. rewrite try_catch_ret.
  eexists _, _. split; [reflexivity|].
  destruct (json request) as [b | e]; run;
    [|apply text_error_response_envelope].
  destruct b as [| |b|z|s|items|props|fname|g]; run;
    try apply text_error_response_envelope; try (now envelope_tac).
  destruct (get_property props (VStr (js "prompt"))) as [| |b|z|p|items|props'|fname|g];
    run; try apply text_error_response_envelope; try (now envelope_tac).
  destruct (negb (truthy (VStr (JsString.trim p)))); run; [now envelope_tac|].
  unfold generateContent.
  destruct (provider env _); run;
    [now envelope_tac | apply text_error_response_envelope].
Qed.

Lemma handleFileUpload_envelope (env : Env) (request : Request) :
  exists calls resp,
    handleFileUpload env request = (calls, Returns resp) /\ envelope resp.
Proof.
  unfold handleFileUpload. rewrite try_catch_ret.
  eexists _, _. split; [reflexivity|].
  destruct (formData request) as [fd | e]; run;
    [|apply file_error_response_envelope].
  destruct (negb (truthy (FormData_get fd (js "file")))); run; [now envelope_tac|].
  destruct (greater_than _ _); run; [now envelope_tac|].
  destruct (negb (truthy (get_property SUPPORTED_TYPES _))); run; [now envelope_tac|].
  destruct (or_else (FormData_get fd (js "prompt")) (VStr DEFAULT_PROMPT));
    run; try apply file_error_response_envelope.
  destruct (FormData_get fd (js "file")) as [| |b|z|s'|items|props|fname|f];
    run; try apply file_error_response_envelope.
  unfold generateContent.
  destruct (provider env _); run;
    [now envelope_tac | apply file_error_response_envelope].
Qed.

(** C6, as the route has it: every request gets a response whose body is
    a JSON object with a boolean success, true exactly when the status is
    200, and exactly one of response and error; the metadata object is
    present in the successes and absent from every failure. *)
Theorem C6_response_envelope (env : Env) (request : Request) :
  exists calls resp,
    POST env request = (calls, Returns resp)
    /\ (exists props, body resp = VObj props)
    /\ json_property (body resp) (js "success") = Some (VBool (status resp =? 200)%Z)
    /\ if (status resp =? 200)%Z
       then (exists text, json_property (body resp) (js "response") = Some (VStr text))
            /\ json_property (body resp) (js "error") = None
            /\ (exists metadata,
                  json_property (body resp) (js "metadata") = Some (VObj metadata))
       else (exists msg, json_property (body resp) (js "error") = Some (VStr msg))
            /\ json_property (body resp) (js "response") = None
            /\ json_property (body resp) (js "metadata") = None.
Proof.
  rewrite POST_dispatch.
  destruct (is_form_data request);
    [apply handleFileUpload_envelope | apply handleTextRequest_envelope].
Qed.

(** A failure without metadata: the answer to a blank prompt holds
    success and error only. *)
Lemma C6_counterexample :
  exists resp,
    POST (answering_env (js "ok")) (json_request (prompt_body "  "))
    = ([], Returns resp)
    /\ status resp = 400%Z
    /\ body resp = VObj [ (js "success", VBool false);
                          (js "error", VStr (js "Prompt is required")) ]
    /\ json_property (body resp) (js "metadata") = None.
Proof.
  eexists. repeat split.
Qed.

(** ** The allow-list and inherited properties *)

(** A type that names neither an entry of [SUPPORTED_TYPES] nor a property
    of [Object.prototype] is rejected with status 400 and the list of the
    supported labels, without a provider call. *)
Lemma unsupported_type_rejected
    (env : Env) (request : Request) (fd : FormData) (f : File) :
  is_form_data request = true ->
  formData request = Returns fd ->
  FormData_get fd (js "file") = VFile f ->
  (size f <= MAX_FILE_SIZE)%N ->
  own_property SUPPORTED_TYPES (type f) = None ->
  own_property Object_prototype (type f) = None ->
  POST env request
  = ([], Returns (NextResponse_json (VObj
       [ (js "success", VBool false);
         (js "error", VStr (js "Unsupported file type: " ++ type f
            ++ js ". Supported types: PDF, TXT, Markdown, DOC, DOCX, CSV, JPEG, PNG, WebP, JSON")) ])
       400)).
Proof.
  intros Hct Hfd Hfile Hsize Hown Hproto.
  rewrite POST_dispatch, Hct. unfold handleFileUpload.
  rewrite try_catch_ret, Hfd. run. rewrite Hfile.
  cbn [truthy negb entry_size entry_type greater_than].
  assert (Hle : (Z.of_N MAX_FILE_SIZE <? Z.of_N (size f))%Z = false)
    by (apply Z.ltb_ge; lia).
  rewrite Hle. unfold get_property. cbn [to_string]. rewrite Hown, Hproto.
  reflexivity.
Qed.

(** C5 at a type outside the allow-list: a five-byte file of type
    'constructor' passes the type check, because [SUPPORTED_TYPES] inherits
    a property of that name; the provider is called and the answer has
    status 200. *)
Theorem C5_inherited_type_accepted :
  let f := sample_file "constructor" 5 hello_bytes in
  let request := multipart_request [(js "file", FileEntry f)] in
  ~ In (type f) supported_mime_types
  /\ (size f <= MAX_FILE_SIZE)%N
  /\ get_property SUPPORTED_TYPES (VStr (type f)) = VFun "Object"
  /\ exists call resp,
       POST (answering_env (js "ok")) request = ([call], Returns resp)
       /\ status resp = 200%Z
       /\ contents call
          = TextPrompt
              (js "Extract key information, summarize content, and provide analysis"
               ++ [10; 10] ++ js "File: resume" ++ [10]
               ++ js "Type: function Object() { [native code] }" ++ [10]
               ++ js "Size: 0.0 KB" ++ [10; 10]
               ++ js "Prompt: Please analyze this file content and provide key insights"
               ++ [10; 10] ++ js "File Content:" ++ [10] ++ js "Hello").
Proof.
  split; [|split; [|split]].
  - vm_compute. intuition discriminate.
  - vm_compute. discriminate.
  - reflexivity.
  - eexists _, _. repeat split.
Qed.

(** * Further properties of the route *)

Lemma text_error_response_status (e : JsError) :
  In (status (text_error_response e)) [401; 429; 500]%Z.
Proof.
  unfold text_error_response.
  destruct (_ || _); [simpl; tauto|].
  destruct (_ || _); simpl; tauto.
Qed.

(** The two shapes of a run of [handleTextRequest]: no provider call and a
    failure status, or one call whose outcome decides the answer. *)
Lemma handleTextRequest_shape (env : Env) (request : Request) :
  (fst (handleTextRequest env request) = []
   /\ exists resp, snd (handleTextRequest env request) = Returns resp
                   /\ In (status resp) [400; 401; 429; 500]%Z)
  \/ (exists p,
        fst (handleTextRequest env request) = [text_call env p]
        /\ snd (handleTextRequest env request)
           = Returns match provider env (text_call env p) with
                     | Returns text => text_success env p text
                     | Throws e => text_error_response e
                     end).
Proof.
  assert (Herr : forall e, In (status (text_error_response e)) [400; 401; 429; 500]%Z)
    by (intros e; right; apply text_error_response_status).
  unfold handleTextRequest. rewrite try_catch_ret.
  destruct (json request) as [b | e]; run; [|left; eauto].
  destruct b as [| |b|z|s|items|props|fname|g]; run;
    try (left; split; [reflexivity|]; eexists; split; [reflexivity|];
         first [apply Herr | simpl; tauto]).
  destruct (get_property props (VStr (js "prompt"))) as [| |b|z|p|items|props'|fname|g];
    run;
    try (left; split; [reflexivity|]; eexists; split; [reflexivity|];
         first [apply Herr | simpl; tauto]).
  destruct (negb (truthy (VStr (JsString.trim p)))); run.
  - left. split; [reflexivity|]. eexists. split; [reflexivity | simpl; tauto].
  - right. exists p. unfold generateContent. fold (text_call env p).
    destruct (provider env (text_call env p)); run; split; reflexivity.
Qed.

(** The same for [handleFileUpload]. *)
Lemma handleFileUpload_shape (env : Env) (request : Request) :
  (fst (handleFileUpload env request) = []
   /\ exists resp, snd (handleFileUpload env request) = Returns resp
                   /\ In (status resp) [400; 413; 401; 429; 500]%Z)
  \/ (exists instruction f supportedType p,
        let call := file_call env instruction f supportedType p in
        fst (handleFileUpload env request) = [call]
        /\ snd (handleFileUpload env request)
           = Returns match provider env call with
                     | Returns analysis => file_success env f supportedType analysis
                     | Throws e => file_error_response e
                     end).
Proof.
  assert (Herr : forall e, In (status (file_error_response e)) [400; 413; 401; 429; 500]%Z).
  { intros e. pose proof (file_error_response_status e) as H. simpl in *. tauto. }
  unfold handleFileUpload. rewrite try_catch_ret.
  destruct (formData request) as [fd | e]; run; [|left; eauto].
  destruct (negb (truthy (FormData_get fd (js "file")))); run;
    [left; split; [reflexivity|]; eexists; split; [reflexivity | simpl; tauto]|].
  destruct (greater_than _ _); run;
    [left; split; [reflexivity|]; eexists; split; [reflexivity | simpl; tauto]|].
  destruct (negb (truthy (get_property SUPPORTED_TYPES _))); run;
    [left; split; [reflexivity|]; eexists; split; [reflexivity | simpl; tauto]|].
  destruct (or_else (FormData_get fd (js "prompt")) (VStr DEFAULT_PROMPT)) as
    [| |b|z|p|items|props|fname|g];
    run; try (left; split; [reflexivity|]; eexists; split; [reflexivity | apply Herr]).
  destruct (FormData_get fd (js "file")) as [| |b|z|s'|items|props|fname|f];
    run; try (left; split; [reflexivity|]; eexists; split; [reflexivity | apply Herr]).
  right.
  exists (or_else (FormData_get fd (js "instruction")) (VStr DEFAULT_INSTRUCTION)),
    f, (get_property SUPPORTED_TYPES (VStr (type f))), p.
  cbv zeta. unfold generateContent, file_call. cbn [entry_type].
  match goal with |- context [provider env ?c] => set (sent := c) end.
  destruct (provider env sent); run; split; reflexivity.
Qed.

(** X1: a request is answered after at most one call to the provider;
    nothing is retried. *)
Theorem X1_at_most_one_provider_call (env : Env) (request : Request) :
  (List.length (fst (POST env request)) <= 1)%nat.
Proof.
  rewrite POST_dispatch. destruct (is_form_data request).
  - destruct (handleFileUpload_shape env request)
      as [[-> _] | [i [f [st [p [-> _]]]]]]; simpl; lia.
  - destruct (handleTextRequest_shape env request) as [[-> _] | [p [-> _]]];
      simpl; lia.
Qed.

(** X2: the answer has status 200 exactly when one provider call was made
    and returned, and then the response is the text the provider gave. *)
Theorem X2_success_iff_provider_returned (env : Env) (request : Request) :
  exists resp,
    snd (POST env request) = Returns resp
    /\ (status resp = 200%Z
        <-> exists call text,
              fst (POST env request) = [call]
              /\ provider env call = Returns text
              /\ json_property (body resp) (js "response") = Some (VStr text)).
Proof.
  rewrite POST_dispatch. destruct (is_form_data request).
  - destruct (handleFileUpload_shape env request)
      as [[Hc [resp [Hr Hs]]] | [i [f [st [p [Hc Hr]]]]]]; rewrite Hc, Hr.
    + exists resp. split; [reflexivity|]. split.
      * intros E. rewrite E in Hs. simpl in Hs. intuition discriminate.
      * intros [call [text [H _]]]. discriminate.
    + eexists. split; [reflexivity|].
      destruct (provider env (file_call env i f st p)) as [a | e] eqn:E; split.
      * intros _. eexists _, a. repeat split. exact E.
      * reflexivity.
      * intros S. pose proof (file_error_response_status e) as H.
        rewrite S in H. simpl in H. intuition discriminate.
      * intros [call [text [[= <-] [H _]]]]. congruence.
  - destruct (handleTextRequest_shape env request)
      as [[Hc [resp [Hr Hs]]] | [p [Hc Hr]]]; rewrite Hc, Hr.
    + exists resp. split; [reflexivity|]. split.
      * intros E. rewrite E in Hs. simpl in Hs. intuition discriminate.
      * intros [call [text [H _]]]. discriminate.
    + eexists. split; [reflexivity|].
      destruct (provider env (text_call env p)) as [a | e] eqn:E; split.
      * intros _. eexists _, a. repeat split. exact E.
      * reflexivity.
      * intros S. pose proof (text_error_response_status e) as H.
        rewrite S in H. simpl in H. intuition discriminate.
      * intros [call [text [[= <-] [H _]]]]. congruence.
Qed.

(** X3: the status of an answer is one of 200, 400, 401, 413, 429 and
    500, and 413 is answered to file uploads only. *)
Theorem X3_status_range (env : Env) (request : Request) :
  exists resp,
    snd (POST env request) = Returns resp
    /\ In (status resp)
         (if is_form_data request then [200; 400; 401; 413; 429; 500]%Z
          else [200; 400; 401; 429; 500]%Z).
Proof.
  rewrite POST_dispatch. destruct (is_form_data request).
  - destruct (handleFileUpload_shape env request)
      as [[_ [resp [-> Hs]]] | [i [f [st [p [_ ->]]]]]].
    + exists resp. split; [reflexivity|]. simpl in *. tauto.
    + eexists. split; [reflexivity|].
      destruct (provider env _) as [a | e]; [simpl; tauto|].
      pose proof (file_error_response_status e) as H. simpl in *. tauto.
  - destruct (handleTextRequest_shape env request)
      as [[_ [resp [-> Hs]]] | [p [_ ->]]].
    + exists resp. split; [reflexivity|]. simpl in *. tauto.
    + eexists. split; [reflexivity|].
      destruct (provider env _) as [a | e]; [simpl; tauto|].
      pose proof (text_error_response_status e) as H. simpl in *. tauto.
Qed.

(** X4: every provider call names the configured model and carries the
    fixed sampling parameters: temperature 0.7, topP 0.8, topK 40, and at
    most 4096 output tokens for a file upload, 2048 for a text request,
    whose contents are a single text prompt. *)
Theorem X4_fixed_generation_config
    (env : Env) (request : Request) (call : ProviderCall) :
  In call (fst (POST env request)) ->
  model call = MODEL_NAME env
  /\ temperature (generationConfig call) == 7 # 10
  /\ topP (generationConfig call) == 8 # 10
  /\ topK (generationConfig call) = 40%Z
  /\ maxOutputTokens (generationConfig call)
     = (if is_form_data request then 4096 else 2048)%Z
  /\ (is_form_data request = false -> exists p, contents call = TextPrompt p).
Proof.
  rewrite POST_dispatch. destruct (is_form_data request).
  - destruct (handleFileUpload_shape env request)
      as [[-> _] | [i [f [st [p [-> _]]]]]]; simpl; [tauto|].
    intros [<- | []]. repeat split; try reflexivity. discriminate.
  - destruct (handleTextRequest_shape env request) as [[-> _] | [p [-> _]]];
      simpl; [tauto|].
    intros [<- | []]. repeat split; try reflexivity. intros _. now exists p.
Qed.

Lemma X4_fixed_generation_config_witness :
  let env := answering_env (js "ok") in
  let call := text_call env (js "Review my resume") in
  model call = MODEL_NAME env
  /\ temperature (generationConfig call) == 7 # 10
  /\ topP (generationConfig call) == 8 # 10
  /\ topK (generationConfig call) = 40%Z
  /\ maxOutputTokens (generationConfig call) = 2048%Z
  /\ (false = false -> exists p, contents call = TextPrompt p).
Proof.
  intros env call.
  apply (X4_fixed_generation_config env
           (json_request (prompt_body "Review my resume")) call).
  left. reflexivity.
Defined.

(** ** Requests that never reach the provider *)

(** X5: a multipart request without a file field, or whose file field is
    the empty string, is answered 400 'No file provided' without a
    provider call, whatever else the form holds. *)
Theorem X5_no_file_provided
    (env : Env) (request : Request) (fd : FormData) :
  is_form_data request = true ->
  formData request = Returns fd ->
  own_property fd (js "file") = None
  \/ own_property fd (js "file") = Some (StringEntry []) ->
  exists resp,
    POST env request = ([], Returns resp)
    /\ status resp = 400%Z
    /\ json_property (body resp) (js "success") = Some (VBool false)
    /\ json_property (body resp) (js "error") = Some (VStr (js "No file provided")).
Proof.
  intros Hct Hfd Hfile. exists no_file_provided.
  split; [|repeat split].
  rewrite POST_dispatch, Hct. unfold handleFileUpload.
  rewrite try_catch_ret, Hfd. run.
  assert (Hfalsy : truthy (FormData_get fd (js "file")) = false)
    by (unfold FormData_get; destruct Hfile as [-> | ->]; reflexivity).
  rewrite Hfalsy. reflexivity.
Qed.

Lemma X5_no_file_provided_witness :
  exists resp,
    POST (answering_env (js "ok"))
      (multipart_request [(js "prompt", StringEntry (js "Review"))])
    = ([], Returns resp)
    /\ status resp = 400%Z
    /\ json_property (body resp) (js "success") = Some (VBool false)
    /\ json_property (body resp) (js "error") = Some (VStr (js "No file provided")).
Proof.
  apply (X5_no_file_provided (answering_env (js "ok"))
           (multipart_request [(js "prompt", StringEntry (js "Review"))])
           [(js "prompt", StringEntry (js "Review"))]).
  - reflexivity.
  - reflexivity.
  - left. reflexivity.
Defined.

(** X6: when the file field is a non-empty text field instead of a file,
    it has neither size nor type: the size check lets it through, and the
    answer is 400 'Unsupported file type: undefined' with the list of the
    labels, without a provider call. *)
Theorem X6_text_field_as_file
    (env : Env) (request : Request) (fd : FormData) (c : N) (s : jsstring) :
  is_form_data request = true ->
  formData request = Returns fd ->
  own_property fd (js "file") = Some (StringEntry (c :: s)) ->
  exists resp,
    POST env request = ([], Returns resp)
    /\ status resp = 400%Z
    /\ json_property (body resp) (js "error")
       = Some (VStr (js "Unsupported file type: undefined. Supported types: PDF, TXT, Markdown, DOC, DOCX, CSV, JPEG, PNG, WebP, JSON")).
Proof.
  intros Hct Hfd Hfile. exists (unsupported_type VUndefined).
  split; [|split; reflexivity].
  rewrite POST_dispatch, Hct. unfold handleFileUpload.
  rewrite try_catch_ret, Hfd. run.
  assert (Hget : FormData_get fd (js "file") = VStr (c :: s))
    by (unfold FormData_get; rewrite Hfile; reflexivity).
  rewrite Hget. reflexivity.
Qed.

Lemma X6_text_field_as_file_witness :
  exists resp,
    POST (answering_env (js "ok"))
      (multipart_request [(js "file", StringEntry (js "resume.pdf"))])
    = ([], Returns resp)
    /\ status resp = 400%Z
    /\ json_property (body resp) (js "error")
       = Some (VStr (js "Unsupported file type: undefined. Supported types: PDF, TXT, Markdown, DOC, DOCX, CSV, JPEG, PNG, WebP, JSON")).
Proof.
  apply (X6_text_field_as_file (answering_env (js "ok"))
           (multipart_request [(js "file", StringEntry (js "resume.pdf"))])
           [(js "file", StringEntry (js "resume.pdf"))] 114 (js "esume.pdf")).
  - reflexivity.
  - reflexivity.
  - reflexivity.
Defined.

Lemma unsupported_type_rejected_witness :
  let f := sample_file "video/mp4" 5 hello_bytes in
  POST (answering_env (js "ok")) (multipart_request [(js "file", FileEntry f)])
  = ([], Returns (NextResponse_json (VObj
       [ (js "success", VBool false);
         (js "error", VStr (js "Unsupported file type: " ++ type f
            ++ js ". Supported types: PDF, TXT, Markdown, DOC, DOCX, CSV, JPEG, PNG, WebP, JSON")) ])
       400)).
Proof.
  intros f.
  apply (unsupported_type_rejected (answering_env (js "ok"))
           (multipart_request [(js "file", FileEntry f)])
           [(js "file", FileEntry f)] f).
  - reflexivity.
  - reflexivity.
  - reflexivity.
  - vm_compute. discriminate.
  - reflexivity.
  - reflexivity.
Defined.

(** ** Malformed text requests *)

(** X8: a JSON request whose prompt is a boolean, a number, an array or
    an object fails inside the handler: the answer is 500 with an error
    text that starts with 'Text analysis failed: ', and no provider call
    is made. *)
Theorem X8_prompt_not_a_string
    (env : Env) (request : Request) (props : list (jsstring * value)) (v : value) :
  is_form_data request = false ->
  json request = Returns (VObj props) ->
  own_property props (js "prompt") = Some v ->
  not_a_string v ->
  exists resp msg,
    POST env request = ([], Returns resp)
    /\ status resp = 500%Z
    /\ json_property (body resp) (js "success") = Some (VBool false)
    /\ json_property (body resp) (js "error")
       = Some (VStr (js "Text analysis failed: " ++ msg)).
Proof.
  intros Hct Hjson Hp Hv.
  rewrite POST_dispatch, Hct. unfold handleTextRequest.
  rewrite try_catch_ret, Hjson. run. unfold get_property. cbn [to_string].
  rewrite Hp.
  destruct v; try contradiction; run; eexists _, _;
    (split; [reflexivity | repeat split]).
Qed.

Lemma X8_prompt_not_a_string_witness :
  exists resp msg,
    POST (answering_env (js "ok")) (json_request (VObj [(js "prompt", VNum 42)]))
    = ([], Returns resp)
    /\ status resp = 500%Z
    /\ json_property (body resp) (js "success") = Some (VBool false)
    /\ json_property (body resp) (js "error")
       = Some (VStr (js "Text analysis failed: " ++ msg)).
Proof.
  apply (X8_prompt_not_a_string (answering_env (js "ok"))
           (json_request (VObj [(js "prompt", VNum 42)]))
           [(js "prompt", VNum 42)] (VNum 42)).
  - reflexivity.
  - reflexivity.
  - reflexivity.
  - exact I.
Defined.

(** X9: a JSON body that is not an object.  The literal null cannot be
    destructured and is answered 500; a boolean, a number, a string or an
    array has no prompt and is answered 400 'Prompt is required'.  No
    provider call is made in either case. *)
Theorem X9_body_not_an_object (env : Env) (request : Request) (b : value) :
  is_form_data request = false ->
  json request = Returns b ->
  (b = VNull ->
     exists resp, POST env request = ([], Returns resp) /\ status resp = 500%Z)
  /\ ((exists x, b = VBool x) \/ (exists z, b = VNum z)
      \/ (exists s, b = VStr s) \/ (exists items, b = VArr items) ->
     exists resp,
       POST env request = ([], Returns resp)
       /\ status resp = 400%Z
       /\ json_property (body resp) (js "error") = Some (VStr (js "Prompt is required"))).
Proof.
  intros Hct Hjson.
  rewrite POST_dispatch, Hct. unfold handleTextRequest.
  rewrite try_catch_ret, Hjson. split.
  - intros ->. run. eexists. split; reflexivity.
  - intros [[x ->] | [[z ->] | [[s ->] | [items ->]]]]; run;
      exists prompt_required; repeat split.
Qed.

Lemma X9_body_not_an_object_witness :
  (exists resp,
     POST (answering_env (js "ok")) (json_request VNull) = ([], Returns resp)
     /\ status resp = 500%Z)
  /\ (exists resp,
     POST (answering_env (js "ok")) (json_request (VStr (js "Review my resume")))
     = ([], Returns resp)
     /\ status resp = 400%Z
     /\ json_property (body resp) (js "error") = Some (VStr (js "Prompt is required"))).
Proof.
  split.
  - apply (X9_body_not_an_object (answering_env (js "ok")) (json_request VNull) VNull);
      reflexivity.
  - apply (X9_body_not_an_object (answering_env (js "ok"))
             (json_request (VStr (js "Review my resume")))
             (VStr (js "Review my resume"))); try reflexivity.
    right. right. left. now exists (js "Review my resume").
Defined.

(** X10: an error thrown while the body is read ([request.json()] on the
    text path, [request.formData()] on an upload) goes through the same
    catch clause as a provider error: the answer is the one a request of
    the same kind gets when its provider call throws that error, and no
    provider call is made. *)
Theorem X10_body_error_mapped_like_provider_error
    (env env' : Env) (request request' : Request)
    (call : ProviderCall) (e : JsError) :
  (if is_form_data request then formData request = Throws e
   else json request = Throws e) ->
  is_form_data request' = is_form_data request ->
  fst (POST env' request') = [call] ->
  provider env' call = Throws e ->
  fst (POST env request) = []
  /\ snd (POST env request) = snd (POST env' request').
Proof.
  intros Hbody Hkind Hcalls Hthrow.
  rewrite !POST_dispatch in *. rewrite Hkind in *.
  destruct (is_form_data request).
  - destruct (handleFileUpload_call env' request' call Hcalls) as [f [st ->]].
    rewrite Hthrow. unfold handleFileUpload at 1 2.
    rewrite try_catch_ret, Hbody. split; reflexivity.
  - destruct (handleTextRequest_call env' request' call Hcalls) as [p [_ ->]].
    rewrite Hthrow. unfold handleTextRequest at 1 2.
    rewrite try_catch_ret, Hbody. split; reflexivity.
Qed.

Lemma X10_body_error_mapped_like_provider_error_witness :
  let e := error_of "Unexpected token 'q', quota is not valid JSON" in
  let broken :=
    {| content_type := Some (js "application/json");
       json := Throws e;
       formData := Throws e |} in
  fst (POST (answering_env (js "ok")) broken) = []
  /\ snd (POST (answering_env (js "ok")) broken)
     = snd (POST (failing_env e) (json_request (prompt_body "Review my resume"))).
Proof.
  intros e broken.
  apply (X10_body_error_mapped_like_provider_error
           (answering_env (js "ok")) (failing_env e) broken
           (json_request (prompt_body "Review my resume"))
           (text_call (failing_env e) (js "Review my resume")) e).
  - reflexivity.
  - reflexivity.
  - reflexivity.
  - reflexivity.
Defined.

(** A reading error whose text holds the word 'quota' is answered 429. *)
Example broken_body_429 :
  let e := error_of "Unexpected token 'q', quota is not valid JSON" in
  exists resp,
    POST (answering_env (js "ok"))
      {| content_type := Some (js "application/json");
         json := Throws e; formData := Throws e |}
    = ([], Returns resp)
    /\ status resp = 429%Z.
Proof. eexists. split; reflexivity. Qed.

(** ** Uploads that pass validation *)

(** X11: for a file of any type of the allow-list, within the size limit,
    whose provider call returns, the answer is 200 with the analysis as
    response and a metadata object that echoes the file: its name, the
    label of its type, its size and the length of the analysis, beside the
    model name. *)
Theorem X11_upload_metadata
    (env : Env) (request : Request) (fd : FormData) (f : File)
    (label : jsstring) (call : ProviderCall) (analysis : jsstring) :
  is_form_data request = true ->
  formData request = Returns fd ->
  FormData_get fd (js "file") = VFile f ->
  (size f <= 10 * 1024 * 1024)%N ->
  own_property SUPPORTED_TYPES (type f) = Some (VStr label) ->
  fst (POST env request) = [call] ->
  provider env call = Returns analysis ->
  exists resp metadata,
    snd (POST env request) = Returns resp
    /\ status resp = 200%Z
    /\ json_property (body resp) (js "response") = Some (VStr analysis)
    /\ json_property (body resp) (js "metadata") = Some metadata
    /\ json_property metadata (js "model") = Some (VStr (MODEL_NAME env))
    /\ json_property metadata (js "fileName") = Some (VStr (name f))
    /\ json_property metadata (js "fileType") = Some (VStr label)
    /\ json_property metadata (js "fileSize") = Some (VNum (Z.of_N (size f)))
    /\ json_property metadata (js "analysisLength")
       = Some (VNum (Z.of_N (JsString.length analysis))).
Proof.
  intros Hct Hfd Hfile Hsize Hown Hcalls Hprov.
  rewrite POST_dispatch, Hct in *.
  assert (Hget : get_property SUPPORTED_TYPES (VStr (type f)) = VStr label)
    by (unfold get_property; cbn [to_string]; rewrite Hown; reflexivity).
  revert Hcalls. unfold handleFileUpload. rewrite try_catch_ret, Hfd. run.
  rewrite Hfile. cbn [truthy negb entry_size entry_type greater_than].
  assert (Hle : (Z.of_N MAX_FILE_SIZE <? Z.of_N (size f))%Z = false)
    by (apply Z.ltb_ge; unfold MAX_FILE_SIZE; lia).
  rewrite Hle, Hget.
  destruct (negb (truthy (VStr label))); run; [discriminate|].
  destruct (or_else (FormData_get fd (js "prompt")) (VStr DEFAULT_PROMPT));
    run; try discriminate.
  unfold generateContent.
  match goal with |- context [provider env ?c] => set (sent := c) end.
  destruct (provider env sent) as [a | e] eqn:E; run; intros [= <-];
    [|congruence].
  assert (a = analysis) by congruence. subst a.
  eexists _, _. repeat split.
Qed.

Lemma X11_upload_metadata_witness :
  let f := sample_file "text/csv" 5 hello_bytes in
  let env := answering_env (js "Two columns.") in
  exists resp metadata,
    snd (POST env (multipart_request [(js "file", FileEntry f)])) = Returns resp
    /\ status resp = 200%Z
    /\ json_property (body resp) (js "response") = Some (VStr (js "Two columns."))
    /\ json_property (body resp) (js "metadata") = Some metadata
    /\ json_property metadata (js "model") = Some (VStr (MODEL_NAME env))
    /\ json_property metadata (js "fileName") = Some (VStr (js "resume"))
    /\ json_property metadata (js "fileType") = Some (VStr (js "CSV"))
    /\ json_property metadata (js "fileSize") = Some (VNum 5)
    /\ json_property metadata (js "analysisLength") = Some (VNum 12).
Proof.
  intros f env.
  apply (X11_upload_metadata env (multipart_request [(js "file", FileEntry f)])
           [(js "file", FileEntry f)] f (js "CSV")
           (file_call env (VStr DEFAULT_INSTRUCTION) f (VStr (js "CSV")) DEFAULT_PROMPT)
           (js "Two columns.")).
  - reflexivity.
  - reflexivity.
  - reflexivity.
  - vm_compute. discriminate.
  - reflexivity.
  - reflexivity.
  - reflexivity.
Defined.

(** X12: the optional fields are replaced by their defaults when they are
    empty strings too, and only then: a prompt or instruction of white
    space alone is sent to the provider as it is (the upload path does not
    trim, unlike the text path). *)
Theorem X12_empty_fields_default
    (env : Env) (request : Request) (fd : FormData) (f : File)
    (prompt instruction : jsstring) :
  is_form_data request = true ->
  formData request = Returns fd ->
  FormData_get fd (js "file") = VFile f ->
  (size f <= 10 * 1024 * 1024)%N ->
  In (type f) supported_mime_types ->
  own_property fd (js "prompt") = Some (StringEntry prompt) ->
  own_property fd (js "instruction") = Some (StringEntry instruction) ->
  exists label,
    fst (POST env request)
    = [file_call env
         (VStr match instruction with [] => DEFAULT_INSTRUCTION | _ => instruction end)
         f (VStr label)
         match prompt with [] => DEFAULT_PROMPT | _ => prompt end].
Proof.
  intros Hct Hfd Hfile Hsize Hsup Hp Hi.
  destruct (supported_label_own _ Hsup) as [label [_ [Hlabel Htruthy]]].
  assert (Hsup' : truthy (get_property SUPPORTED_TYPES (VStr (type f))) = true)
    by (rewrite Hlabel; exact Htruthy).
  assert (Hp' : or_else (FormData_get fd (js "prompt")) (VStr DEFAULT_PROMPT)
                = VStr match prompt with [] => DEFAULT_PROMPT | _ => prompt end)
    by (unfold FormData_get; rewrite Hp; now destruct prompt).
  pose proof (handleFileUpload_valid env request fd f _ Hfd Hfile Hsize Hsup' Hp') as H.
  cbv zeta in H. rewrite Hlabel in H.
  unfold FormData_get at 1 in H. rewrite Hi in H.
  exists label. rewrite POST_dispatch, Hct, H. cbn [fst].
  now destruct instruction.
Qed.

Lemma X12_empty_fields_default_witness :
  let f := sample_file "text/plain" 5 hello_bytes in
  let env := answering_env (js "ok") in
  exists label,
    fst (POST env (multipart_request
           [ (js "file", FileEntry f);
             (js "prompt", StringEntry (js "   "));
             (js "instruction", StringEntry []) ]))
    = [file_call env (VStr DEFAULT_INSTRUCTION) f (VStr label) (js "   ")].
Proof.
  intros f env.
  apply (X12_empty_fields_default env
           (multipart_request
              [ (js "file", FileEntry f);
                (js "prompt", StringEntry (js "   "));
                (js "instruction", StringEntry []) ])
           [ (js "file", FileEntry f);
             (js "prompt", StringEntry (js "   "));
             (js "instruction", StringEntry []) ]
           f (js "   ") []).
  - reflexivity.
  - reflexivity.
  - reflexivity.
  - vm_compute. discriminate.
  - vm_compute. tauto.
  - reflexivity.
  - reflexivity.
Defined.

(** X13: when the prompt field is itself an uploaded file, a file that
    passes validation is still not analysed: the handler fails before the
    provider is called and answers 500. *)
Theorem X13_prompt_field_is_a_file
    (env : Env) (request : Request) (fd : FormData) (f g : File) :
  is_form_data request = true ->
  formData request = Returns fd ->
  FormData_get fd (js "file") = VFile f ->
  (size f <= 10 * 1024 * 1024)%N ->
  In (type f) supported_mime_types ->
  own_property fd (js "prompt") = Some (FileEntry g) ->
  exists resp msg,
    POST env request = ([], Returns resp)
    /\ status resp = 500%Z
    /\ json_property (body resp) (js "error")
       = Some (VStr (js "File analysis failed: " ++ msg)).
Proof.
  intros Hct Hfd Hfile Hsize Hsup Hp.
  destruct (supported_label_own _ Hsup) as [label [_ [Hlabel Htruthy]]].
  rewrite POST_dispatch, Hct. unfold handleFileUpload.
  rewrite try_catch_ret, Hfd. run. rewrite Hfile.
  cbn [truthy negb entry_size entry_type greater_than].
  assert (Hle : (Z.of_N MAX_FILE_SIZE <? Z.of_N (size f))%Z = false)
    by (apply Z.ltb_ge; unfold MAX_FILE_SIZE; lia).
  rewrite Hle, Hlabel, Htruthy. cbn [negb].
  assert (Hp' : or_else (FormData_get fd (js "prompt")) (VStr DEFAULT_PROMPT) = VFile g)
    by (unfold FormData_get; rewrite Hp; reflexivity).
  rewrite Hp'. run. eexists _, _. split; [reflexivity | split; reflexivity].
Qed.

Lemma X13_prompt_field_is_a_file_witness :
  let f := sample_file "application/pdf" 5 hello_bytes in
  exists resp msg,
    POST (answering_env (js "ok"))
      (multipart_request [(js "file", FileEntry f); (js "prompt", FileEntry f)])
    = ([], Returns resp)
    /\ status resp = 500%Z
    /\ json_property (body resp) (js "error")
       = Some (VStr (js "File analysis failed: " ++ msg)).
Proof.
  intros f.
  apply (X13_prompt_field_is_a_file (answering_env (js "ok"))
           (multipart_request [(js "file", FileEntry f); (js "prompt", FileEntry f)])
           [(js "file", FileEntry f); (js "prompt", FileEntry f)] f f).
  - reflexivity.
  - reflexivity.
  - reflexivity.
  - vm_compute. discriminate.
  - vm_compute. tauto.
  - reflexivity.
Defined.

(** ** What the failures disclose *)

(** X14: when the provider call throws and the answer is not 500, the
    error text is one of three fixed sentences and the details field is the
    provider's message; the stack trace is sent with status 500 only. *)
Theorem X14_details_of_mapped_errors
    (env : Env) (request : Request) (call : ProviderCall) (e : JsError) :
  fst (POST env request) = [call] ->
  provider env call = Throws e ->
  exists resp,
    snd (POST env request) = Returns resp
    /\ (status resp <> 500%Z ->
        json_property (body resp) (js "details") = option_map VStr (message e)
        /\ exists text,
             json_property (body resp) (js "error") = Some (VStr text)
             /\ In text
                  [ js "Gemini API key is invalid or missing. Please check your GOOGLE_API_KEY in .env.local file.";
                    js "API quota exceeded. Please check your Google Cloud billing or wait until quota resets.";
                    js "File format may not be supported by Gemini. Try converting to a different format." ]).
Proof.
  intros Hcalls Hthrow. rewrite POST_dispatch in *.
  destruct (is_form_data request).
  - destruct (handleFileUpload_call env request call Hcalls) as [f [st ->]].
    rewrite Hthrow. eexists. split; [reflexivity|].
    unfold file_error_response.
    destruct (_ || _);
      [intros _; split; [now destruct (message e) | eexists; split; [reflexivity | simpl; tauto]]|].
    destruct (_ || _);
      [intros _; split; [now destruct (message e) | eexists; split; [reflexivity | simpl; tauto]]|].
    destruct (_ && _);
      [intros _; split; [now destruct (message e) | eexists; split; [reflexivity | simpl; tauto]]|].
    intros H. now destruct H.
  - destruct (handleTextRequest_call env request call Hcalls) as [p [_ ->]].
    rewrite Hthrow. eexists. split; [reflexivity|].
    unfold text_error_response.
    destruct (_ || _);
      [intros _; split; [now destruct (message e) | eexists; split; [reflexivity | simpl; tauto]]|].
    destruct (_ || _);
      [intros _; split; [now destruct (message e) | eexists; split; [reflexivity | simpl; tauto]]|].
    intros H. now destruct H.
Qed.

Lemma X14_details_of_mapped_errors_witness :
  let e := error_of "API key not valid. Please pass a valid API key." in
  exists resp,
    snd (POST (failing_env e) (json_request (prompt_body "Review my resume")))
    = Returns resp
    /\ json_property (body resp) (js "details")
       = Some (VStr (js "API key not valid. Please pass a valid API key.")).
Proof.
  intros e.
  destruct (X14_details_of_mapped_errors (failing_env e)
              (json_request (prompt_body "Review my resume"))
              (text_call (failing_env e) (js "Review my resume")) e
              eq_refl eq_refl) as [resp [H1 H2]].
  exists resp. split; [exact H1|].
  assert (Hs : status resp <> 500%Z).
  { vm_compute in H1. injection H1 as <-. vm_compute. discriminate. }
  exact (proj1 (H2 Hs)).
Defined.

(** * The home page *)

(** X16: with an input of white space only (the empty input included) the
    text form sends nothing: the handler stops after [preventDefault] and
    the state, old response and error included, stays as it was. *)
Theorem X16_blank_input_not_submitted
    (fetch_json : jsstring -> FetchInit -> outcome value) (st : Home.State) :
  forallb JsString.is_ws (Home.input st) = true ->
  Home.effects (Home.handleTextSubmit fetch_json st) = [PreventDefault]
  /\ Home.final (Home.handleTextSubmit fetch_json st) = st
  /\ Home.in_flight (Home.handleTextSubmit fetch_json st) = None.
Proof.
  intros Hblank. unfold Home.handleTextSubmit.
  rewrite truthy_trim, Hblank. repeat split.
Qed.

Lemma X16_blank_input_not_submitted_witness :
  Home.effects (Home.handleTextSubmit (fun _ _ => Returns VNull) (typed "   "))
  = [PreventDefault]
  /\ Home.final (Home.handleTextSubmit (fun _ _ => Returns VNull) (typed "   "))
     = typed "   "
  /\ Home.in_flight (Home.handleTextSubmit (fun _ _ => Returns VNull) (typed "   "))
     = None.
Proof.
  apply (X16_blank_input_not_submitted (fun _ _ => Returns VNull) (typed "   ")).
  reflexivity.
Defined.

Lemma settle_spec (failure : jsstring) (data : outcome value) (st : Home.State) :
  let st' := Home.settle failure data st in
  Home.loading st' = false
  /\ Home.user st' = Home.user st /\ Home.loadingAuth st' = Home.loadingAuth st
  /\ Home.input st' = Home.input st /\ Home.file st' = Home.file st
  /\ Home.activeTab st' = Home.activeTab st
  /\ (Home.response st' = Home.response st \/ Home.error st' = Home.error st).
Proof.
  unfold Home.settle.
  destruct data as [d | e]; [|cbn; tauto].
  destruct (member d (js "success")) as [success | e]; [|cbn; tauto].
  destruct (truthy success).
  - destruct (member d (js "response")); cbn; tauto.
  - destruct (member d (js "error")); cbn; tauto.
Qed.

(** X17: the life of a submission, for the text form and the file form
    alike.  When no request is made, nothing changes.  When one is made it
    is a single fetch of /api/analyze; while it is awaited the page shows
    loading with the old response and error cleared; when it is over,
    loading is off again, at most one of response and error is set, and
    the input, the chosen file, the user and the tab are untouched. *)
Theorem X17_submit_lifecycle
    (fetch_json : jsstring -> FetchInit -> outcome value)
    (st : Home.State) (run : Home.Run) :
  run = Home.handleTextSubmit fetch_json st
  \/ run = Home.handleFileSubmit fetch_json st ->
  match Home.in_flight run with
  | None => Home.effects run = [PreventDefault] /\ Home.final run = st
  | Some waiting =>
      (exists init, Home.effects run = [PreventDefault; Fetch (js "/api/analyze") init])
      /\ Home.loading waiting = true
      /\ Home.response waiting = VStr [] /\ Home.error waiting = VStr []
      /\ Home.loading (Home.final run) = false
      /\ (Home.response (Home.final run) = VStr []
          \/ Home.error (Home.final run) = VStr [])
      /\ Home.input (Home.final run) = Home.input st
      /\ Home.file (Home.final run) = Home.file st
      /\ Home.user (Home.final run) = Home.user st
      /\ Home.activeTab (Home.final run) = Home.activeTab st
  end.
Proof.
  intros [-> | ->].
  - unfold Home.handleTextSubmit.
    destruct (negb (truthy (VStr (JsString.trim (Home.input st)))));
      cbn [Home.in_flight Home.effects Home.final]; [split; reflexivity|].
    match goal with |- context [Home.settle ?f ?d ?s] =>
      pose proof (settle_spec f d s) as H end.
    cbv zeta in H. cbn [Home.setResponse Home.setError Home.setLoading
      Home.response Home.error Home.user Home.loadingAuth Home.input
      Home.file Home.activeTab Home.loading] in H |- *.
    intuition eauto.
  - unfold Home.handleFileSubmit.
    destruct (Home.file st) as [f|] eqn:Hf;
      cbn [Home.in_flight Home.effects Home.final]; [|split; reflexivity].
    match goal with |- context [Home.settle ?f ?d ?s] =>
      pose proof (settle_spec f d s) as H end.
    cbv zeta in H. cbn [Home.setResponse Home.setError Home.setLoading
      Home.response Home.error Home.user Home.loadingAuth Home.input
      Home.file Home.activeTab Home.loading] in H |- *.
    rewrite Hf in H. intuition eauto.
Qed.

Lemma X17_submit_lifecycle_witness :
  let run := Home.handleTextSubmit (fun _ _ => Throws (error_of "Failed to fetch"))
               (typed "Review my resume") in
  Home.loading (Home.final run) = false
  /\ Home.response (Home.final run) = VStr []
  /\ Home.error (Home.final run) = VStr (js "Failed to connect to server").
Proof.
  intros run.
  pose proof (X17_submit_lifecycle (fun _ _ => Throws (error_of "Failed to fetch"))
                (typed "Review my resume") run (or_introl eq_refl)) as H.
  subst run. cbv in H. destruct H as [_ [_ [_ [_ [Hloading _]]]]].
  split; [exact Hloading | split; reflexivity].
Defined.

(** X18: the text form and the route, end to end.  For an input that is
    not blank, when the route reads the body the page sent and the page
    reads the answer the route gave, exactly one provider call is made,
    with the input as typed; if it returns, the page shows its text and no
    error; if it throws, the page shows the error text of the route and no
    response.  The route never answers such a submission with 'Prompt is
    required'. *)
Theorem X18_text_form_end_to_end
    (env : Env) (fetch_json : jsstring -> FetchInit -> outcome value)
    (st : Home.State) (request : Request) (resp : HttpResponse) (data : value) :
  forallb JsString.is_ws (Home.input st) = false ->
  content_type request = sent_content_type (Home.text_init st) ->
  json request = Returns (VObj [(js "prompt", VStr (Home.input st))]) ->
  snd (POST env request) = Returns resp ->
  fetch_json (js "/api/analyze") (Home.text_init st) = Returns data ->
  received data resp ->
  let shown := Home.final (Home.handleTextSubmit fetch_json st) in
  fst (POST env request) = [text_call env (Home.input st)]
  /\ Home.loading shown = false
  /\ match provider env (text_call env (Home.input st)) with
     | Returns text => Home.response shown = VStr text /\ Home.error shown = VStr []
     | Throws e =>
         Home.response shown = VStr []
         /\ exists msg, Home.error shown = VStr msg
                        /\ json_property (body resp) (js "error") = Some (VStr msg)
                        /\ msg <> js "Prompt is required"
     end.
Proof.
  intros Hblank Hct Hjson Hresp Hfetch Hrecv shown.
  assert (Hkind : is_form_data request = false)
    by (unfold is_form_data; rewrite Hct; reflexivity).
  rewrite POST_dispatch, Hkind in *.
  assert (Hrun : handleTextRequest env request
            = ([text_call env (Home.input st)],
               Returns match provider env (text_call env (Home.input st)) with
                       | Returns text => text_success env (Home.input st) text
                       | Throws e => text_error_response e
                       end)).
  { unfold handleTextRequest. rewrite try_catch_ret, Hjson. run.
    unfold get_property. cbn [to_string own_property].
    rewrite eqb_refl, truthy_trim, Hblank. cbn [negb].
    unfold generateContent. fold (text_call env (Home.input st)).
    destruct (provider env (text_call env (Home.input st))); reflexivity. }
  rewrite Hrun in *. cbn [fst snd] in *. injection Hresp as <-.
  split; [reflexivity|].
  subst shown. unfold Home.handleTextSubmit.
  rewrite truthy_trim, Hblank. cbn [negb Home.final]. rewrite Hfetch.
  unfold Home.settle.
  rewrite (Hrecv (js "success")), (Hrecv (js "response")), (Hrecv (js "error"))
    by (simpl; tauto).
  destruct (provider env (text_call env (Home.input st))) as [text | e].
  - repeat split.
  - split; [reflexivity|].
    unfold text_error_response.
    destruct (_ || _); [split; [reflexivity|]; eexists; repeat split; discriminate|].
    destruct (_ || _); [split; [reflexivity|]; eexists; repeat split; discriminate|].
    split; [reflexivity|]. eexists. repeat split. discriminate.
Qed.

Lemma X18_text_form_end_to_end_witness :
  let env := answering_env (js "Strong resume.") in
  let st := typed "Review my resume" in
  let data := VObj [ (js "success", VBool true);
                     (js "response", VStr (js "Strong resume.")) ] in
  let shown := Home.final (Home.handleTextSubmit (fun _ _ => Returns data) st) in
  fst (POST env (json_request (prompt_body "Review my resume")))
  = [text_call env (js "Review my resume")]
  /\ Home.loading shown = false
  /\ Home.response shown = VStr (js "Strong resume.")
  /\ Home.error shown = VStr [].
Proof.
  intros env st data shown.
  apply (X18_text_form_end_to_end env (fun _ _ => Returns data) st
           (json_request (prompt_body "Review my resume"))
           (text_success env (js "Review my resume") (js "Strong resume.")) data).
  - reflexivity.
  - reflexivity.
  - reflexivity.
  - reflexivity.
  - reflexivity.
  - intros key [<- | [<- | [<- | []]]]; reflexivity.
Defined.

(** X19: the file form and the route.  The page always sends a non-empty
    prompt field (the input as typed, white space included, or 'Analyze
    this resume' when the input is empty) and never an instruction field.
    So for a chosen file that passes validation the provider call of the
    route is built from that prompt and from the default instruction; the
    default prompt of the route is never used. *)
Theorem X19_file_form_prompt
    (env : Env) (fetch_json : jsstring -> FetchInit -> outcome value)
    (st : Home.State) (f : File) (request : Request) (fd : FormData) :
  Home.file st = Some f ->
  In (Fetch (js "/api/analyze")
        {| method := js "POST"; headers := []; fetch_body := FormBody fd |})
     (Home.effects (Home.handleFileSubmit fetch_json st)) ->
  is_form_data request = true ->
  formData request = Returns fd ->
  (size f <= 10 * 1024 * 1024)%N ->
  In (type f) supported_mime_types ->
  exists label,
    fst (POST env request)
    = [file_call env (VStr DEFAULT_INSTRUCTION) f (VStr label)
         match Home.input st with
         | [] => js "Analyze this resume"
         | _ => Home.input st
         end].
Proof.
  intros Hfile Hsent Hkind Hfd Hsize Hsup.
  unfold Home.handleFileSubmit in Hsent. rewrite Hfile in Hsent.
  cbn [Home.effects In] in Hsent.
  destruct Hsent as [H | [H | []]]; [discriminate|].
  injection H as <-.
  destruct (supported_label_own _ Hsup) as [label [_ [Hlabel Htruthy]]].
  assert (Hsup' : truthy (get_property SUPPORTED_TYPES (VStr (type f))) = true)
    by (rewrite Hlabel; exact Htruthy).
  set (p := match Home.input st with
            | [] => js "Analyze this resume"
            | _ => Home.input st
            end).
  assert (Hsame : match or_else (VStr (Home.input st)) (VStr (js "Analyze this resume")) with
                  | VStr q => q
                  | _ => []
                  end = p)
    by (unfold or_else, p; now destruct (Home.input st)).
  rewrite Hsame in Hfd.
  assert (Hne : p <> []) by (unfold p; now destruct (Home.input st)).
  assert (Hp : or_else (FormData_get [(js "file", FileEntry f); (js "prompt", StringEntry p)]
                          (js "prompt")) (VStr DEFAULT_PROMPT) = VStr p)
    by (unfold or_else; cbn; now destruct p).
  pose proof (handleFileUpload_valid env request _ f p Hfd eq_refl Hsize Hsup' Hp) as H.
  cbv zeta in H. rewrite Hlabel in H.
  exists label. rewrite POST_dispatch, Hkind, H. reflexivity.
Qed.

Lemma X19_file_form_prompt_witness :
  let f := sample_file "application/pdf" 5 hello_bytes in
  let env := answering_env (js "ok") in
  exists label,
    fst (POST env (multipart_request
           [(js "file", FileEntry f); (js "prompt", StringEntry (js "Analyze this resume"))]))
    = [file_call env (VStr DEFAULT_INSTRUCTION) f (VStr label) (js "Analyze this resume")].
Proof.
  intros f env.
  apply (X19_file_form_prompt env (fun _ _ => Returns VNull) (picked "" f) f
           (multipart_request
              [(js "file", FileEntry f); (js "prompt", StringEntry (js "Analyze this resume"))])
           [(js "file", FileEntry f); (js "prompt", StringEntry (js "Analyze this resume"))]).
  - reflexivity.
  - right. left. reflexivity.
  - reflexivity.
  - reflexivity.
  - vm_compute. discriminate.
  - vm_compute. tauto.
Defined.

(** X20: the auth gate.  Starting from the first render, after any
    sequence of sign-in and sign-out events the page is past its spinner
    only if a user has been seen, and it is past it exactly when some
    event carried a user; a sign-out event redirects to /login and leaves
    the state as it is. *)
Theorem X20_auth_gate (events : list (option Home.User)) :
  let st := Home.after_auth_events events Home.initial in
  (Home.shows_spinner st = false -> Home.user st <> None)
  /\ (Home.shows_spinner st = false <-> exists u, In (Some u) events)
  /\ forall s, Home.effects (Home.onAuthStateChanged None s) = [Push (js "/login")]
               /\ Home.final (Home.onAuthStateChanged None s) = s.
Proof.
  cbv zeta.
  assert (Hgen : forall evs s,
    let st := Home.after_auth_events evs s in
    ((Home.loadingAuth s = false -> Home.user s <> None) ->
     (Home.loadingAuth st = false -> Home.user st <> None))
    /\ (Home.loadingAuth st = false
        <-> Home.loadingAuth s = false \/ exists u, In (Some u) evs)).
  { induction evs as [|[u|] evs IH]; intros s; cbn.
    - split; [tauto|]. split; [tauto | intros [H | [u []]]; exact H].
    - specialize (IH (Home.setLoadingAuth false (Home.setUser (Some u) s))).
      cbv zeta in IH. unfold Home.after_auth_events in IH.
      destruct IH as [IH1 IH2]. split.
      + intros _. apply IH1. intros _. discriminate.
      + rewrite IH2. cbn. split; [intros _; right; eauto | intros _; left; reflexivity].
    - specialize (IH s). cbv zeta in IH. unfold Home.after_auth_events in IH.
      destruct IH as [IH1 IH2]. split; [exact IH1|].
      rewrite IH2. split.
      + intros [H | [u H]]; [tauto | right; exists u; now right].
      + intros [H | [u [H | H]]]; [tauto | discriminate | right; eauto]. }
  destruct (Hgen events Home.initial) as [H1 H2]. cbv zeta in H1, H2.
  unfold Home.shows_spinner. split; [|split].
  - apply H1. discriminate.
  - rewrite H2. cbn. split; [intros [H | H]; [discriminate | exact H] | tauto].
  - intros s. split; reflexivity.
Qed.

(** * The login page *)

(** X21: in sign-up mode, passwords that differ stop the submission before
    the identity provider is called, whatever their length: the only
    effect is [preventDefault], the error shown is 'Passwords do not
    match.', and loading is off again. *)
Theorem X21_signup_password_mismatch
    (signIn createUser : jsstring -> jsstring -> outcome unit)
    (unicode_upper : N -> jsstring)
    (st : Login.State) :
  Login.isLogin st = false ->
  Login.password st <> Login.confirmPassword st ->
  Login.effects (Login.handleAuth signIn createUser unicode_upper st) = [PreventDefault]
  /\ Login.error (Login.final (Login.handleAuth signIn createUser unicode_upper st)) = js "Passwords do not match."
  /\ Login.loading (Login.final (Login.handleAuth signIn createUser unicode_upper st)) = false
  /\ Login.rejected (Login.handleAuth signIn createUser unicode_upper st) = None.
Proof.
  intros Hmode Hdiff. unfold Login.handleAuth, Login.signup_check.
  rewrite Hmode.
  destruct (JsString.eqb (Login.password st) (Login.confirmPassword st)) eqn:E;
    [apply eqb_eq in E; contradiction|].
  repeat split.
Qed.

(** X22: in sign-up mode, matching passwords of fewer than six code units
    stop the submission too, with the error 'Password must be at least 6
    characters.'; the identity provider is not called. *)
Theorem X22_signup_password_too_short
    (signIn createUser : jsstring -> jsstring -> outcome unit)
    (unicode_upper : N -> jsstring)
    (st : Login.State) :
  Login.isLogin st = false ->
  Login.password st = Login.confirmPassword st ->
  (JsString.length (Login.password st) < 6)%N ->
  Login.effects (Login.handleAuth signIn createUser unicode_upper st) = [PreventDefault]
  /\ Login.error (Login.final (Login.handleAuth signIn createUser unicode_upper st))
     = js "Password must be at least 6 characters."
  /\ Login.loading (Login.final (Login.handleAuth signIn createUser unicode_upper st)) = false
  /\ Login.rejected (Login.handleAuth signIn createUser unicode_upper st) = None.
Proof.
  intros Hmode Hsame Hshort. unfold Login.handleAuth, Login.signup_check.
  rewrite Hmode, <- Hsame, eqb_refl. cbn [negb].
  apply N.ltb_lt in Hshort. rewrite Hshort.
  repeat split.
Qed.

(** The calls to the identity provider among the effects of a run. *)
Lemma handleAuth_effects
    (signIn createUser : jsstring -> jsstring -> outcome unit)
    (unicode_upper : N -> jsstring)
    (st : Login.State) :
  Login.effects (Login.handleAuth signIn createUser unicode_upper st)
  = PreventDefault
    :: (if Login.isLogin st
        then SignInWithEmailAndPassword (Login.email st) (Login.password st)
             :: match signIn (Login.email st) (Login.password st) with
                | Returns _ => [Push (js "/")]
                | Throws _ => []
                end
        else if JsString.eqb (Login.password st) (Login.confirmPassword st)
                && (6 <=? JsString.length (Login.password st))
        then CreateUserWithEmailAndPassword (Login.email st) (Login.password st)
             :: match createUser (Login.email st) (Login.password st) with
                | Returns _ => [Push (js "/")]
                | Throws _ => []
                end
        else []).
Proof.
  unfold Login.handleAuth, Login.signup_check, Login.auth_failed.
  destruct (Login.isLogin st).
  - destruct (signIn _ _) as [u | e]; [reflexivity|].
    now destruct (message e).
  - destruct (JsString.eqb _ _); cbn [negb andb];
      [|now destruct (message (Login.Error _))].
    rewrite N.leb_antisym. destruct (_ <? 6); cbn [negb]; [reflexivity|].
    destruct (createUser _ _) as [u | e]; [reflexivity|].
    now destruct (message e).
Qed.

(** X23: which call a submission makes.  In login mode the provider is
    asked to sign in with the email and password as typed, with no check of
    the password on the page; in sign-up mode it is asked to create the
    user exactly when the two passwords are equal and at least six code
    units long.  No run makes more than one call. *)
Theorem X23_identity_provider_calls
    (signIn createUser : jsstring -> jsstring -> outcome unit)
    (unicode_upper : N -> jsstring)
    (st : Login.State) (e p : jsstring) :
  (In (SignInWithEmailAndPassword e p) (Login.effects (Login.handleAuth signIn createUser unicode_upper st))
   <-> Login.isLogin st = true /\ e = Login.email st /\ p = Login.password st)
  /\ (In (CreateUserWithEmailAndPassword e p) (Login.effects (Login.handleAuth signIn createUser unicode_upper st))
      <-> Login.isLogin st = false
          /\ Login.password st = Login.confirmPassword st
          /\ (6 <= JsString.length (Login.password st))%N
          /\ e = Login.email st /\ p = Login.password st)
  /\ (List.length (filter (fun eff => match eff with
                                     | SignInWithEmailAndPassword _ _
                                     | CreateUserWithEmailAndPassword _ _
                                     | SignInWithPopup => true
                                     | _ => false
                                     end)
                    (Login.effects (Login.handleAuth signIn createUser unicode_upper st))) <= 1)%nat.
Proof.
  rewrite handleAuth_effects.
  destruct (Login.isLogin st).
  - destruct (signIn _ _); cbn [In filter List.length];
      intuition (try discriminate; try congruence; try lia).
  - destruct (JsString.eqb _ _) eqn:E; cbn [andb].
    + apply eqb_eq in E.
      destruct (6 <=? _) eqn:L.
      * apply N.leb_le in L.
        destruct (createUser _ _); cbn [In filter List.length];
          intuition (try discriminate; try congruence; try lia).
      * apply N.leb_gt in L. cbn [In filter List.length].
        intuition (try discriminate; try congruence; try lia).
    + assert (Hne : Login.password st <> Login.confirmPassword st)
        by (intros H; apply eqb_eq in H; congruence).
      cbn [In filter List.length].
      intuition (try discriminate; try congruence; try lia).
Qed.

(** X24: the page moves on to '/' exactly when the call to the identity
    provider was made and returned, and then no error is shown. *)
Theorem X24_redirect_iff_signed_in
    (signIn createUser : jsstring -> jsstring -> outcome unit)
    (unicode_upper : N -> jsstring)
    (st : Login.State) :
  (In (Push (js "/")) (Login.effects (Login.handleAuth signIn createUser unicode_upper st))
   <-> (Login.isLogin st = true
        /\ exists u, signIn (Login.email st) (Login.password st) = Returns u)
       \/ (Login.isLogin st = false
           /\ Login.password st = Login.confirmPassword st
           /\ (6 <= JsString.length (Login.password st))%N
           /\ exists u, createUser (Login.email st) (Login.password st) = Returns u))
  /\ (In (Push (js "/")) (Login.effects (Login.handleAuth signIn createUser unicode_upper st)) ->
      Login.error (Login.final (Login.handleAuth signIn createUser unicode_upper st)) = []
      /\ Login.loading (Login.final (Login.handleAuth signIn createUser unicode_upper st)) = false).
Proof.
  split.
  - rewrite handleAuth_effects.
    destruct (Login.isLogin st).
    + destruct (signIn _ _) as [u | err]; cbn; split.
      * intros _. left. eauto.
      * tauto.
      * intros [H | [H | []]]; discriminate.
      * intros [[_ [u H]] | [H _]]; discriminate.
    + destruct (JsString.eqb _ _) eqn:E; cbn [andb].
      * apply eqb_eq in E. destruct (6 <=? _) eqn:L.
        -- apply N.leb_le in L.
           destruct (createUser _ _) as [u | err]; cbn; split.
           ++ intros _. right. eauto 6.
           ++ tauto.
           ++ intros [H | [H | []]]; discriminate.
           ++ intros [[H _] | [_ [_ [_ [u H]]]]]; discriminate.
        -- apply N.leb_gt in L. cbn. split.
           ++ intros [H | []]; discriminate.
           ++ intros [[H _] | [_ [_ [H _]]]]; [discriminate | lia].
      * assert (Hne : Login.password st <> Login.confirmPassword st)
          by (intros H; apply eqb_eq in H; congruence).
        cbn. split.
        -- intros [H | []]; discriminate.
        -- intros [[H _] | [_ [H _]]]; [discriminate | contradiction].
  - unfold Login.handleAuth, Login.signup_check, Login.auth_failed.
    destruct (Login.isLogin st).
    + destruct (signIn _ _) as [u | err]; [cbn; tauto|].
      destruct (message err); cbn; intros [H | [H | []]]; discriminate.
    + destruct (negb _); [cbn; intros [H | []]; discriminate|].
      destruct (_ <? 6); [cbn; intros [H | []]; discriminate|].
      destruct (createUser _ _) as [u | err]; [cbn; tauto|].
      destruct (message err); cbn; intros [H | [H | []]]; discriminate.
Qed.

(** X25: however a submission ends, loading is off when it is over; its
    promise is rejected only when the error caught has no message, and
    then the error shown is the empty one set at the start. *)
Theorem X25_loading_always_reset
    (signIn createUser : jsstring -> jsstring -> outcome unit)
    (unicode_upper : N -> jsstring)
    (st : Login.State) :
  Login.loading (Login.final (Login.handleAuth signIn createUser unicode_upper st)) = false
  /\ (Login.rejected (Login.handleAuth signIn createUser unicode_upper st) <> None ->
      Login.error (Login.final (Login.handleAuth signIn createUser unicode_upper st)) = []
      /\ ((Login.isLogin st = true
           /\ exists err, signIn (Login.email st) (Login.password st) = Throws err
                          /\ message err = None)
          \/ (Login.isLogin st = false
              /\ exists err, createUser (Login.email st) (Login.password st) = Throws err
                             /\ message err = None))).
Proof.
  unfold Login.handleAuth, Login.signup_check, Login.auth_failed.
  destruct (Login.isLogin st).
  - destruct (signIn _ _) as [u | err] eqn:E; [cbn; split; [reflexivity | congruence]|].
    destruct (message err) eqn:M; cbn; (split; [reflexivity|]); [congruence|].
    intros _. split; [reflexivity|]. left. eauto.
  - destruct (negb _); [cbn; split; [reflexivity | congruence]|].
    destruct (_ <? 6); [cbn; split; [reflexivity | congruence]|].
    destruct (createUser _ _) as [u | err] eqn:E; [cbn; split; [reflexivity | congruence]|].
    destruct (message err) eqn:M; cbn; (split; [reflexivity|]); [congruence|].
    intros _. split; [reflexivity|]. right. eauto.
Qed.


Lemma X21_signup_password_mismatch_witness :
  let run := Login.handleAuth accepts accepts keep_case (signup_form "abc" "abd") in
  Login.effects run = [PreventDefault]
  /\ Login.error (Login.final run) = js "Passwords do not match."
  /\ Login.loading (Login.final run) = false
  /\ Login.rejected run = None.
Proof.
  intros run.
  apply (X21_signup_password_mismatch accepts accepts keep_case (signup_form "abc" "abd")).
  - reflexivity.
  - discriminate.
Defined.

Lemma X22_signup_password_too_short_witness :
  let run := Login.handleAuth accepts accepts keep_case (signup_form "abcde" "abcde") in
  Login.effects run = [PreventDefault]
  /\ Login.error (Login.final run) = js "Password must be at least 6 characters."
  /\ Login.loading (Login.final run) = false
  /\ Login.rejected run = None.
Proof.
  intros run.
  apply (X22_signup_password_too_short accepts accepts keep_case
           (signup_form "abcde" "abcde")).
  - reflexivity.
  - reflexivity.
  - reflexivity.
Defined.

(** ** The error text of the login page *)

Lemma replace_first_absent (pat rep s : jsstring) :
  JsString.includes pat s = false -> replace_first pat rep s = s.
Proof.
  induction s as [|c s IH]; cbn [JsString.includes replace_first].
  - rewrite orb_false_r. now intros ->.
  - intros H. apply orb_false_iff in H as [-> H]. now rewrite IH.
Qed.

Lemma replace_first_prefix (pat rep rest : jsstring) :
  replace_first pat rep (pat ++ rest) = rep ++ rest.
Proof.
  assert (Hp : JsString.startsWith pat (pat ++ rest) = true)
    by (apply startsWith_prefix; now exists rest).
  destruct pat as [|c pat]; [now destruct rest|].
  cbn [app replace_first]. cbn [app] in Hp. rewrite Hp.
  f_equal. cbn [List.length skipn].
  rewrite skipn_app, skipn_all, Nat.sub_diag. reflexivity.
Qed.

Lemma hyphens_to_spaces_no_hyphen (s : jsstring) :
  ~ In 45 (hyphens_to_spaces s).
Proof.
  unfold hyphens_to_spaces. intros H. apply in_map_iff in H as [c [Hc _]].
  destruct (c =? 45) eqn:E; [discriminate|].
  apply N.eqb_neq in E. congruence.
Qed.

Lemma capitalized_no_hyphen (unicode_upper : N -> jsstring) (msg : jsstring) :
  (forall c, 128 <= c -> ~ In 45 (unicode_upper c)) ->
  ~ In 45 msg ->
  ~ In 45 (Login.capitalized unicode_upper msg).
Proof.
  intros Hupper Hmsg. unfold Login.capitalized, Login.charAt0_toUpperCase.
  destruct msg as [|c rest]; [exact Hmsg|].
  cbn [skipn]. intros H. apply in_app_or in H as [H | H].
  - destruct (c <? 128) eqn:A;
      [|apply N.ltb_ge in A; exact (Hupper c A H)].
    destruct H as [H | []].
    destruct ((97 <=? c) && (c <=? 122)) eqn:E.
    + apply andb_true_iff in E as [E1 E2].
      apply N.leb_le in E1. lia.
    + apply Hmsg. left. exact H.
  - apply Hmsg. right. exact H.
Qed.

(** X26: the message shown after a caught error has every hyphen of the
    error's message turned into a space: when the cleaned text does not
    hold 'operation not allowed' (whose replacement has a hyphen of its
    own), and upper-casing a code unit outside ASCII yields no hyphen, the
    error that the catch clause of [handleAuth] sets holds no hyphen. *)
Theorem X26_shown_message_hyphens
    (unicode_upper : N -> jsstring) (effs : list Effect)
    (inflight : option Login.State) (err : JsError) (st : Login.State)
    (m : jsstring) :
  message err = Some m ->
  JsString.includes (js "operation not allowed")
    (hyphens_to_spaces
       (replace_first (js "auth/") [] (replace_first (js "Firebase: ") [] m)))
  = false ->
  (forall c, 128 <= c -> ~ In 45 (unicode_upper c)) ->
  let shown :=
    Login.error (Login.final (Login.auth_failed unicode_upper effs inflight err st)) in
  shown = Login.capitalized unicode_upper (Login.clean_message m)
  /\ ~ In 45 shown.
Proof.
  intros Hm Habsent Hupper shown. subst shown.
  unfold Login.auth_failed. rewrite Hm.
  cbn [Login.final Login.setLoading Login.setError Login.error].
  split; [reflexivity|].
  apply capitalized_no_hyphen; [exact Hupper|].
  unfold Login.clean_message.
  rewrite (replace_first_absent _ _ _ Habsent).
  apply hyphens_to_spaces_no_hyphen.
Qed.

Lemma X26_shown_message_hyphens_witness :
  let err := error_of "Firebase: Error (auth/too-many-requests)." in
  let shown :=
    Login.error (Login.final
      (Login.handleAuth (refuses err) accepts keep_case (login_form "guess"))) in
  shown = js "Error (too many requests)." /\ ~ In 45 shown.
Proof.
  intros err shown.
  apply (X26_shown_message_hyphens keep_case
           [PreventDefault;
            SignInWithEmailAndPassword (js "ann@example.com") (js "guess")]
           (Some (Login.setError [] (Login.setLoading true (login_form "guess"))))
           err
           (Login.setError [] (Login.setLoading true (login_form "guess")))
           (js "Firebase: Error (auth/too-many-requests).")).
  - reflexivity.
  - reflexivity.
  - intros c Hc [H | []]. lia.
Defined.

(** X27: a sign-in refused with the provider's usual message, 'Firebase:
    Error (auth/' followed by a code and ').', shows 'Error (' followed by
    the code with its hyphens as spaces and ').', unless the code is the
    one that gets its own sentence; nothing is sent on and loading is off. *)
Theorem X27_refused_sign_in_message
    (signIn createUser : jsstring -> jsstring -> outcome unit)
    (unicode_upper : N -> jsstring)
    (st : Login.State) (err : JsError) (code : jsstring) :
  Login.isLogin st = true ->
  signIn (Login.email st) (Login.password st) = Throws err ->
  message err = Some (js "Firebase: Error (auth/" ++ code ++ js ").") ->
  JsString.includes (js "operation not allowed")
    (js "Error (" ++ hyphens_to_spaces code ++ js ").") = false ->
  let run := Login.handleAuth signIn createUser unicode_upper st in
  Login.error (Login.final run) = js "Error (" ++ hyphens_to_spaces code ++ js ")."
  /\ Login.loading (Login.final run) = false
  /\ ~ In (Push (js "/")) (Login.effects run)
  /\ Login.rejected run = None.
Proof.
  intros Hmode Hthrow Hmsg Habsent run.
  subst run. unfold Login.handleAuth. rewrite Hmode, Hthrow.
  unfold Login.auth_failed. rewrite Hmsg.
  cbn [Login.final Login.effects Login.rejected Login.setLoading Login.setError
       Login.error Login.loading].
  assert (Hclean : Login.clean_message (js "Firebase: Error (auth/" ++ code ++ js ").")
                   = js "Error (" ++ hyphens_to_spaces code ++ js ")."). 
  { unfold Login.clean_message.
    change (js "Firebase: Error (auth/" ++ code ++ js ").")
      with (js "Firebase: " ++ (js "Error (auth/" ++ code ++ js ").")).
    rewrite replace_first_prefix. cbn [app].
    assert (Hauth : replace_first (js "auth/") [] (js "Error (auth/" ++ code ++ js ").")
                    = js "Error (" ++ code ++ js ").") by reflexivity.
    rewrite Hauth.
    assert (Hmap : hyphens_to_spaces (js "Error (" ++ code ++ js ").")
                   = js "Error (" ++ hyphens_to_spaces code ++ js ").")
      by (unfold hyphens_to_spaces; rewrite !map_app; reflexivity).
    rewrite Hmap. apply replace_first_absent. exact Habsent. }
  rewrite Hclean. repeat split.
  cbn. intros [H | [H | []]]; discriminate.
Qed.

Lemma X27_refused_sign_in_message_witness :
  let err := error_of "Firebase: Error (auth/wrong-password)." in
  let run := Login.handleAuth (refuses err) accepts keep_case (login_form "guess") in
  Login.error (Login.final run) = js "Error (wrong password)."
  /\ Login.loading (Login.final run) = false
  /\ ~ In (Push (js "/")) (Login.effects run)
  /\ Login.rejected run = None.
Proof.
  intros err run.
  apply (X27_refused_sign_in_message (refuses err) accepts keep_case
           (login_form "guess") err (js "wrong-password")).
  - reflexivity.
  - reflexivity.
  - reflexivity.
  - reflexivity.
Defined.

(** The code that gets its own sentence. *)
Example operation_not_allowed_message :
  Login.capitalized keep_case
    (Login.clean_message (js "Firebase: Error (auth/operation-not-allowed)."))
  = js "Error (Email/Password sign-in is not enabled in Firebase Console.).".
Proof. reflexivity. Qed.

(** A message in lower case is shown with its first letter in upper case. *)
Example lower_case_message :
  Login.capitalized keep_case (Login.clean_message (js "auth/too-many-requests"))
  = js "Too many requests".
Proof. reflexivity. Qed.
